(** * Animated-Wallpaper-Generation: the ComfyUI app builders, the download
      helpers and the entry point, embedded in Rocq.

    The development follows the Python sources:
    - [comfy_utils.py]: the three download helpers;
    - [app_builders/comfy_app_builder.py]: the base builder and its pipeline;
    - [app_builders/*_comfy_app_builder.py]: the five workload builders;
    - [main.py]: the entry point.

    Python values are modelled as follows.  A [str] is a Rocq [string] whose
    characters are read as the code points 0..255; [str.lower] and
    [str.strip] are given on that range with Python's rules.  A [dict] with
    string keys is a [gmap string _].  A Modal image is the list of the build
    steps that were chained to describe it (the SDK builds images from such a
    description), oldest step first.  Everything that happens outside the
    program (the model hub, the shell, the file [tokens.json], the process
    environment) is an oracle of an [Env]; the effects of the program are
    recorded, in program order, in a trace of [event]s. *)

From Stdlib Require Import ZArith Ascii String List Bool Lia.
From Stdlib Require Import DecimalString.
From stdpp Require Import base option gmap strings list fin_maps.

Local Open Scope Z_scope.

(* ===================================================================== *)
(** ** Python builtins used by the sources *)
(* ===================================================================== *)

Module Py.

(** [ord(c)] for a code point below 256. *)
Definition ord (c : ascii) : N := N_of_ascii c.

(** [c.isspace()]: on 0..255 the white space of [str] is U+0009..U+000D,
    U+001C..U+0020, U+0085 and U+00A0. *)
Definition isspace (c : ascii) : bool :=
  let n := ord c in
  ((9 <=? n) && (n <=? 13) || (28 <=? n) && (n <=? 32)
   || (n =? 133) || (n =? 160))%N.

(** [c.lower()]: on 0..255 the cased letters are A..Z and U+00C0..U+00DE
    without U+00D7; each is 32 below its lower-case form. *)
Definition lower_char (c : ascii) : ascii :=
  let n := ord c in
  if ((65 <=? n) && (n <=? 90)
      || (192 <=? n) && (n <=? 222) && negb (n =? 215))%N
  then ascii_of_N (n + 32) else c.

Fixpoint lower (s : string) : string :=
  match s with
  | EmptyString => EmptyString
  | String c r => String (lower_char c) (lower r)
  end.

Fixpoint lstrip (s : string) : string :=
  match s with
  | EmptyString => EmptyString
  | String c r => if isspace c then lstrip r else s
  end.

Fixpoint rstrip (s : string) : string :=
  match s with
  | EmptyString => EmptyString
  | String c r =>
      match rstrip r with
      | EmptyString => if isspace c then EmptyString else String c EmptyString
      | r' => String c r'
      end
  end.

(** [s.strip()] with no argument. *)
Definition strip (s : string) : string := rstrip (lstrip s).

(** [str(n)] for a natural number. *)
Definition str (n : nat) : string := NilEmpty.string_of_uint (Nat.to_uint n).

Fixpoint zeros (k : nat) : string :=
  match k with
  | O => EmptyString
  | S k' => String "0" (zeros k')
  end.

(** [s.zfill(width)]: pads with zeros on the left, after a leading sign. *)
Definition zfill (s : string) (width : nat) : string :=
  let fill := (width - String.length s)%nat in
  match s with
  | String c r =>
      if (Ascii.eqb c "+" || Ascii.eqb c "-")%bool
      then String c (zeros fill +:+ r)
      else zeros fill +:+ s
  | EmptyString => zeros fill
  end.

(** [range(n)]. *)
Definition range (n : nat) : list nat := seq 0 n.

End Py.

(* ===================================================================== *)
(** ** The Modal SDK values the builders construct *)
(* ===================================================================== *)

(** The six builder classes of [app_builders/]. *)
Inductive class : Type :=
| C_ComfyAppBuilder
| C_ACEStepComfyAppBuilder
| C_FluxComfyAppBuilder
| C_KritaComfyAppBuilder
| C_QwenComfyAppBuilder
| C_WanComfyAppBuilder.

#[global] Instance class_eq_dec : EqDecision class.
Proof. solve_decision. Defined.

(** The class of an object and the attributes [__init__] sets; no method
  changes them afterwards. *)
Record attrs : Type := {
  __class__ : class;
  gpu : string;
  _app_name : string;
  _output_vol_name : string;
  _comfy_dir : string;
  _comfy_models_dir : string;
  _comfy_output_dir : string;
  _cache_dir : string
}.

Module modal.

(** [modal.Volume.from_name(name, create_if_missing=...)]. *)
Record Volume : Type := Volume_from_name {
  vol_name : string;
  create_if_missing : bool
}.

(** The bound method [self._hf_download] handed to [run_function]: it
    carries [self], whose class resolves the method when the step runs. *)
Record bound_method : Type := Bound_hf_download {
  im_self : attrs
}.

(** One chained build step. *)
Inductive layer : Type :=
| debian_slim_ (python_version : string)
| apt_install_ (package : string)
| pip_install_ (package : string)
| run_commands_ (commands : list string)
| add_local_python_source_ (module : string) (copy : bool)
| add_local_file_ (local_path remote_path : string) (copy : bool)
| env_ (vars : list (string * string))
| run_function_ (raw_f : bound_method) (volumes : gmap string Volume)
                (force_build : bool) (kwargs_tokens : gmap string string).

Definition Image : Type := list layer.

Definition debian_slim (python_version : string) : Image :=
  [debian_slim_ python_version].
Definition apt_install (image : Image) (package : string) : Image :=
  image ++ [apt_install_ package].
Definition pip_install (image : Image) (package : string) : Image :=
  image ++ [pip_install_ package].
Definition run_commands (image : Image) (commands : list string) : Image :=
  image ++ [run_commands_ commands].
Definition add_local_python_source (image : Image) (module : string)
    (copy : bool) : Image :=
  image ++ [add_local_python_source_ module copy].
Definition add_local_file (image : Image) (local_path remote_path : string)
    (copy : bool) : Image :=
  image ++ [add_local_file_ local_path remote_path copy].
Definition env (image : Image) (vars : list (string * string)) : Image :=
  image ++ [env_ vars].
Definition run_function (image : Image) (raw_f : bound_method)
    (volumes : gmap string Volume) (force_build : bool)
    (kwargs_tokens : gmap string string) : Image :=
  image ++ [run_function_ raw_f volumes force_build kwargs_tokens].

(** [modal.App(name=..., image=...)]. *)
Record App : Type := App_ {
  app_name : string;
  app_image : option Image
}.

End modal.

(** A builder object: the attributes of [__init__] and the two attributes
    the pipeline assigns. *)
Record builder : Type := {
  self_attrs : attrs;
  _image : option modal.Image;
  _volumes : gmap string modal.Volume
}.

(* ===================================================================== *)
(** ** Effects: exceptions, events, the outside world, the monad *)
(* ===================================================================== *)

(** The exceptions the sources can raise. *)
Inductive exn : Type :=
| ValueError (msg : string)
| KeyError (key : string)
| CalledProcessError (returncode : Z) (cmd : string)
| HubError          (* raised inside [huggingface_hub] *)
| OSError.          (* [open] on tokens.json failed *)

Inductive result (A : Type) : Type :=
| Ok (a : A)
| Raise (e : exn).
Arguments Ok {A} a.
Arguments Raise {A} e.

(** The shell commands of the sources; [render] is the string handed to
    [subprocess.run(..., shell=True)] or written in a [run_commands] step. *)
Inductive shell_cmd : Type :=
| ln_s (target link_name : string)
| wget_q_O (output url : string)
| mkdir_p (dir : string)
| rm_rf (dir : string).

Definition render (c : shell_cmd) : string :=
  match c with
  | ln_s target link_name => "ln -s " +:+ target +:+ " " +:+ link_name
  | wget_q_O output url => "wget -q -O " +:+ output +:+ " " +:+ url
  | mkdir_p dir => "mkdir -p " +:+ dir
  | rm_rf dir => "rm -rf " +:+ dir
  end.

(** The states of the build pipeline, named after the methods. *)
Inductive stage : Type :=
| St_build_image
| St_install_comfy_nodes
| St_post_install_dep
| St_copy_files
| St_download_models
| St_create_output_vol.

#[global] Instance stage_eq_dec : EqDecision stage.
Proof. solve_decision. Defined.

(** What [main.py] registers with [@app.function], [@modal.concurrent] and
    [@modal.web_server]. *)
Record web_function : Type := {
  wf_app : modal.App;
  wf_max_containers : Z;
  wf_gpu : string;
  wf_volumes : gmap string modal.Volume;
  wf_max_inputs : Z;
  wf_port : Z;
  wf_startup_timeout : Z;
  wf_command : string
}.

(** Observable steps, in program order. *)
Inductive event : Type :=
| Print (line : string)
| HfHubDownload (repo_id filename cache_dir : string) (token : option string)
                (path : option string)
| SnapshotDownload (repo_id : string) (allow_patterns ignore_patterns : list string)
                   (cache_dir : string) (path : option string)
| SubprocessRun (cmd : shell_cmd) (returncode : Z)
| OpenTokens (contents : option (gmap string string))
| StageCall (s : stage) (input : option modal.Image) (output : modal.Image)
| RegisterWebFunction (f : web_function).

(** The outside world.  The hub and the shell may answer differently as the
    run proceeds, so they see the trace so far.  [None] from a hub oracle
    means the call raised.  [tokens_json] is [None] when tokens.json cannot
    be opened and [Some toks] when it parses to the dict [toks].  [shell]
    gives the return code [subprocess.run] sees: the exit status of the
    line as [sh -c] reports it. *)
Record Env : Type := {
  environ_APP : option string;
  tokens_json : option (gmap string string);
  hf_hub_download :
    list event -> string -> string -> string -> option string -> option string;
  snapshot_download :
    list event -> string -> list string -> list string -> string -> option string;
  shell : list event -> string -> Z
}.

(** Computations: a trace transformer that returns or raises. *)
Definition M (A : Type) : Type := list event -> result A * list event.

Definition ret {A} (a : A) : M A := fun tr => (Ok a, tr).
Definition raise {A} (e : exn) : M A := fun tr => (Raise e, tr).
Definition bind {A B} (m : M A) (k : A -> M B) : M B :=
  fun tr =>
    match m tr with
    | (Ok a, tr') => k a tr'
    | (Raise e, tr') => (Raise e, tr')
    end.
Definition emit (e : event) : M unit := fun tr => (Ok tt, tr ++ [e]).

Declare Scope py_scope.
Delimit Scope py_scope with py.
Notation "x <- m ;; k" := (bind m (fun x => k))
  (at level 100, m at next level, right associativity) : py_scope.
Notation "m ;;; k" := (bind m (fun _ => k))
  (at level 100, right associativity) : py_scope.
Local Open Scope py_scope.

(** [for x in xs: body x]. *)
Fixpoint for_ {A} (xs : list A) (body : A -> M unit) : M unit :=
  match xs with
  | [] => ret tt
  | x :: xs' => body x ;;; for_ xs' body
  end.

(** [d[key]] on a dict. *)
Definition getitem {V} (d : gmap string V) (key : string) : M V :=
  match d !! key with
  | Some v => ret v
  | None => raise (KeyError key)
  end.

Definition print (line : string) : M unit := emit (Print line).

(* ===================================================================== *)
(** ** comfy_utils.py *)
(* ===================================================================== *)

Module comfy_utils.
Section WithEnv.
Variable E : Env.

(** [subprocess.run(cmd, shell=True, check=check)]. *)
Definition subprocess_run (cmd : shell_cmd) (check : bool) : M unit :=
  fun tr =>
    let rc := shell E tr (render cmd) in
    (if check && negb (rc =? 0)
     then Raise (CalledProcessError rc (render cmd))
     else Ok tt,
     tr ++ [SubprocessRun cmd rc]).

(** [huggingface_hub.hf_hub_download]. *)
Definition hf_hub_download_ (repo_id filename cache_dir : string)
    (token : option string) : M string :=
  fun tr =>
    let r := hf_hub_download E tr repo_id filename cache_dir token in
    (match r with Some path => Ok path | None => Raise HubError end,
     tr ++ [HfHubDownload repo_id filename cache_dir token r]).

(** [huggingface_hub.snapshot_download]. *)
Definition snapshot_download_ (repo_id : string)
    (allow_patterns ignore_patterns : list string) (cache_dir : string)
    : M string :=
  fun tr =>
    let r := snapshot_download E tr repo_id allow_patterns ignore_patterns
               cache_dir in
    (match r with Some path => Ok path | None => Raise HubError end,
     tr ++ [SnapshotDownload repo_id allow_patterns ignore_patterns
              cache_dir r]).

Definition download_hf_file (repo filename cache_dir save_dir : string)
    (save_filename : option string) (token : option string) : M unit :=
  print ("Downloading " +:+ repo +:+ "/" +:+ filename) ;;;
  path <- hf_hub_download_ repo filename cache_dir token ;;
  let save_filename :=
    match save_filename with None => filename | Some s => s end in
  subprocess_run (ln_s path (save_dir +:+ "/" +:+ save_filename)) true.

Definition download_hf_snapshot (repo dir_name cache_dir save_dir : string)
    (allow_patterns ignore_patterns : list string) : M unit :=
  print ("Downloading " +:+ repo) ;;;
  path <- snapshot_download_ repo allow_patterns ignore_patterns cache_dir ;;
  subprocess_run (ln_s path (save_dir +:+ "/" +:+ dir_name)) true.

Definition download_wget_file (url filename cache_dir save_dir : string)
    : M unit :=
  print ("Downloading " +:+ url) ;;;
  let path := cache_dir +:+ "/" +:+ filename in
  subprocess_run (wget_q_O path url) true ;;;
  subprocess_run (ln_s path (save_dir +:+ "/" +:+ filename)) true.

End WithEnv.
End comfy_utils.

(* ===================================================================== *)
(** ** app_builders/comfy_app_builder.py *)
(* ===================================================================== *)

(** The methods a call through [self] resolves to, per class. *)
Record vtable : Type := {
  vt_build_image : attrs -> modal.Image;
  vt_install_comfy_nodes : attrs -> modal.Image -> modal.Image;
  vt_post_install_dep : attrs -> modal.Image -> modal.Image;
  vt_copy_files : attrs -> modal.Image -> modal.Image;
  vt_hf_download : Env -> attrs -> gmap string string -> M unit;
  vt_download_models :
  Env -> attrs -> modal.Image -> bool -> M (modal.Image * modal.Volume);
  vt_create_output_vol : attrs -> modal.Image -> modal.Image * modal.Volume
}.

Definition set_gpu (v : string) (a : attrs) : attrs :=
  {| __class__ := __class__ a; gpu := v; _app_name := _app_name a;
   _output_vol_name := _output_vol_name a; _comfy_dir := _comfy_dir a;
   _comfy_models_dir := _comfy_models_dir a;
   _comfy_output_dir := _comfy_output_dir a; _cache_dir := _cache_dir a |}.

Definition set_app_name (v : string) (a : attrs) : attrs :=
  {| __class__ := __class__ a; gpu := gpu a; _app_name := v;
   _output_vol_name := _output_vol_name a; _comfy_dir := _comfy_dir a;
   _comfy_models_dir := _comfy_models_dir a;
   _comfy_output_dir := _comfy_output_dir a; _cache_dir := _cache_dir a |}.

Definition set_output_vol_name (v : string) (a : attrs) : attrs :=
  {| __class__ := __class__ a; gpu := gpu a; _app_name := _app_name a;
   _output_vol_name := v; _comfy_dir := _comfy_dir a;
   _comfy_models_dir := _comfy_models_dir a;
   _comfy_output_dir := _comfy_output_dir a; _cache_dir := _cache_dir a |}.

Module ComfyAppBuilder.

(** [__init__]; [c] is the class being instantiated.  The assignments to
    [_image] and [_volumes] are in [new] below. *)
Definition __init__ (c : class) : attrs :=
  let comfy_dir := "/root/comfy/ComfyUI" in
  {| __class__ := c;
     gpu := "T4";
     _app_name := "comfyui";
     _output_vol_name := "comfyui-output";
     _comfy_dir := comfy_dir;
     _comfy_models_dir := comfy_dir +:+ "/models";
     _comfy_output_dir := comfy_dir +:+ "/output";
     _cache_dir := "/cache" |}.

Definition new (a : attrs) : builder :=
  {| self_attrs := a; _image := None; _volumes := ∅ |}.

Definition _build_image (self : attrs) : modal.Image :=
  let image := modal.debian_slim "3.11" in
  let image := modal.apt_install image "git" in
  let image := modal.apt_install image "wget" in
  let image := modal.pip_install image "fastapi[standard]==0.115.4" in
  let image := modal.pip_install image "comfy-cli" in
  let image := modal.pip_install image "huggingface_hub[hf_transfer]" in
  let image := modal.run_commands image
                 ["comfy --skip-prompt install --fast-deps --nvidia"] in
  image.

Definition _post_install_dep (self : attrs) (image : modal.Image)
    : modal.Image := image.

Definition _install_comfy_nodes (self : attrs) (image : modal.Image)
    : modal.Image := image.

Definition _copy_files (self : attrs) (image : modal.Image) : modal.Image :=
  let image := modal.add_local_python_source image "comfy_utils" true in
  modal.add_local_file image "tokens.json" "/root/tokens.json" true.

Definition _hf_download (E : Env) (self : attrs)
    (tokens : gmap string string) : M unit := ret tt.

(** [with open("tokens.json", "r") as f: tokens = json.load(f)].  A file
    that cannot be opened raises [OSError]; a file that parses gives its
    dict.  A file that opens but does not parse makes [json.load] raise a
    [ValueError] of its own; [Env] has no such file, so that run is not
    covered. *)
Definition load_tokens (E : Env) : M (gmap string string) :=
  fun tr =>
    (match tokens_json E with Some t => Ok t | None => Raise OSError end,
     tr ++ [OpenTokens (tokens_json E)]).

Definition _download_models (E : Env) (self : attrs) (image : modal.Image)
    (redownload_models : bool) : M (modal.Image * modal.Volume) :=
  tokens <- load_tokens E ;;
  let vol := modal.Volume_from_name "hf-hub-cache" true in
  let image := modal.env image [("HF_HUB_ENABLE_HF_TRANSFER", "1")] in
  let image := modal.run_function image
                 (modal.Bound_hf_download self)
                 {[ _cache_dir self := vol ]}
                 redownload_models
                 tokens in
  ret (image, vol).

Definition _create_output_vol (self : attrs) (image : modal.Image)
    : modal.Image * modal.Volume :=
  let output_vol := modal.Volume_from_name (_output_vol_name self) true in
  let image := modal.run_commands image
                 [render (rm_rf (_comfy_output_dir self))] in
  (image, output_vol).

Section Pipeline.
(** Method resolution, fixed once all classes are defined. *)
Variable mro : class -> vtable.
Variable E : Env.

(** The pipeline.  The source rebinds one variable [image]; here each
    stage's result has its own name.  Every call of a stage through [self]
    is recorded with the image it received and the image it returned. *)
Definition _build_image_and_volumes (self : builder)
    (redownload_models : bool) : M builder :=
  let a := self_attrs self in
  let vt := mro (__class__ a) in
  let image1 := vt_build_image vt a in
  emit (StageCall St_build_image None image1) ;;;
  let image2 := vt_install_comfy_nodes vt a image1 in
  emit (StageCall St_install_comfy_nodes (Some image1) image2) ;;;
  let image3 := vt_post_install_dep vt a image2 in
  emit (StageCall St_post_install_dep (Some image2) image3) ;;;
  let image4 := vt_copy_files vt a image3 in
  emit (StageCall St_copy_files (Some image3) image4) ;;;
  r <- vt_download_models vt E a image4 redownload_models ;;
  let '(image5, cache_vol) := r in
  emit (StageCall St_download_models (Some image4) image5) ;;;
  let '(image6, output_vol) := vt_create_output_vol vt a image5 in
  emit (StageCall St_create_output_vol (Some image5) image6) ;;;
  ret {| self_attrs := a;
         _image := Some image6;
         _volumes := <[ _comfy_output_dir a := output_vol ]>
                       (<[ _cache_dir a := cache_vol ]> ∅) |}.

(** [redownload_models=False] when the argument is omitted. *)
Definition build_app (self : builder) (redownload_models : option bool)
    : M (builder * modal.App) :=
  let redownload_models := default false redownload_models in
  self <- _build_image_and_volumes self redownload_models ;;
  let app := modal.App_ (_app_name (self_attrs self)) (_image self) in
  ret (self, app).

Definition get_volumes (self : builder) (redownload_models : option bool)
    : M (builder * gmap string modal.Volume) :=
  let redownload_models := default false redownload_models in
  self <- (if bool_decide (_volumes self = ∅)
           then _build_image_and_volumes self redownload_models
           else ret self) ;;
  ret (self, _volumes self).

Definition print_output_volume_usage (self : builder) : M unit :=
  print ("`modal volume get " +:+ _output_vol_name (self_attrs self)
         +:+ " <file>` to download output generations") ;;;
  print ("`modal volume delete " +:+ _output_vol_name (self_attrs self)
         +:+ " -y` to delete the output volume").

End Pipeline.

End ComfyAppBuilder.

(* ===================================================================== *)
(** ** app_builders/flux_comfy_app_builder.py *)
(* ===================================================================== *)

Module FluxComfyAppBuilder.

Definition __init__ (c : class) : attrs :=
  let self := ComfyAppBuilder.__init__ c in
  let self := set_gpu "T4" self in
  let self := set_app_name "flux-comfyui" self in
  set_output_vol_name "flux-comfyui-output" self.

Section Methods.
(** [super()]: the methods of the parent class. *)
Variable super : vtable.

Definition _hf_download (E : Env) (self : attrs)
    (tokens : gmap string string) : M unit :=
  vt_hf_download super E self tokens ;;;
  let repo := "comfyanonymous/flux_text_encoders" in
  let save_dir := _comfy_models_dir self +:+ "/text_encoders" in
  comfy_utils.download_hf_file E repo "t5xxl_fp8_e4m3fn_scaled.safetensors"
    (_cache_dir self) save_dir None None ;;;
  comfy_utils.download_hf_file E repo "clip_l.safetensors"
    (_cache_dir self) save_dir None None ;;;
  comfy_utils.download_hf_file E "Comfy-Org/Lumina_Image_2.0_Repackaged"
    "split_files/vae/ae.safetensors"
    (_cache_dir self)
    (_comfy_models_dir self +:+ "/vae")
    (Some "ae.safetensors") None ;;;
  token <- getitem tokens "HF_TOKEN" ;;
  comfy_utils.download_hf_file E "black-forest-labs/FLUX.1-schnell"
    "flux1-schnell.safetensors"
    (_cache_dir self)
    (_comfy_models_dir self +:+ "/unet")
    None (Some token).

End Methods.

End FluxComfyAppBuilder.

(* ===================================================================== *)
(** ** app_builders/wan_comfy_app_builder.py *)
(* ===================================================================== *)

Module WanComfyAppBuilder.

Definition __init__ (c : class) : attrs :=
  let self := ComfyAppBuilder.__init__ c in
  let self := set_gpu "L40S" self in
  let self := set_app_name "wan-comfyui" self in
  set_output_vol_name "wan-comfyui-output" self.

Section Methods.
(** [super()]: the methods of the parent class. *)
Variable super : vtable.

Definition _install_comfy_nodes (self : attrs) (image : modal.Image)
    : modal.Image :=
  let image := vt_install_comfy_nodes super self image in
  let image := modal.run_commands image
    [ "comfy node install --fast-deps ComfyUI-GGUF";
      "comfy node install --fast-deps ComfyUI-WanStartEndFramesNative" ] in
  image.

Definition _hf_download (E : Env) (self : attrs)
    (tokens : gmap string string) : M unit :=
  vt_hf_download super E self tokens ;;;
  let repo := "Comfy-Org/Wan_2.1_ComfyUI_repackaged" in
  let filename :=
    "split_files/text_encoders/umt5_xxl_fp8_e4m3fn_scaled.safetensors" in
  let save_filename := "umt5_xxl_fp8_e4m3fn_scaled.safetensors" in
  comfy_utils.download_hf_file E repo filename (_cache_dir self)
    (_comfy_models_dir self +:+ "/text_encoders") (Some save_filename) None ;;;
  let filename := "split_files/vae/wan_2.1_vae.safetensors" in
  let save_filename := "wan_2.1_vae.safetensors" in
  comfy_utils.download_hf_file E repo filename (_cache_dir self)
    (_comfy_models_dir self +:+ "/vae") (Some save_filename) None ;;;
  let filename := "split_files/clip_vision/clip_vision_h.safetensors" in
  let save_filename := "clip_vision_h.safetensors" in
  comfy_utils.download_hf_file E repo filename (_cache_dir self)
    (_comfy_models_dir self +:+ "/clip_vision") (Some save_filename) None ;;;
  civitai_token <- getitem tokens "CIVITAI_TOKEN" ;;
  let url :=
    "https://civitai.com/api/download/models/1873761?type=Model&format=GGUF&size=full&fp=fp32&token="
    +:+ civitai_token in
  comfy_utils.download_wget_file E url
    "liveWallpaperFast_i2v14B720P.gguf"
    (_cache_dir self)
    (_comfy_models_dir self +:+ "/diffusion_models").

End Methods.

End WanComfyAppBuilder.

(* ===================================================================== *)
(** ** app_builders/qwen_comfy_app_builder.py *)
(* ===================================================================== *)

Module QwenComfyAppBuilder.

Definition __init__ (c : class) : attrs :=
  let self := ComfyAppBuilder.__init__ c in
  let self := set_gpu "A100-80GB" self in
  let self := set_app_name "qwen-comfyui" self in
  set_output_vol_name "qwen-comfyui-output" self.

Section Methods.
(** [super()]: the methods of the parent class. *)
Variable super : vtable.

Definition _install_comfy_nodes (self : attrs) (image : modal.Image)
    : modal.Image :=
  let image := vt_install_comfy_nodes super self image in
  let image := modal.run_commands image
    [ "comfy node install --fast-deps ComfyUI-Qwen-VL";
      "comfy node install --fast-deps comfyui-custom-scripts" ] in
  image.

Definition _hf_download (E : Env) (self : attrs)
    (tokens : gmap string string) : M unit :=
  vt_hf_download super E self tokens ;;;
  let save_dir :=
    _comfy_models_dir self +:+ "/Qwen/Qwen-VL/Qwen2.5-VL-32B-Instruct" in
  comfy_utils.subprocess_run E (mkdir_p save_dir) true ;;;
  let repo := "Qwen/Qwen2.5-VL-32B-Instruct" in
  for_ (Py.range 18) (fun i =>
    comfy_utils.download_hf_file E repo
      ("model-000" +:+ Py.zfill (Py.str (i + 1)) 2 +:+ "-of-00018.safetensors")
      (_cache_dir self) save_dir None None) ;;;
  comfy_utils.download_hf_file E repo "config.json" (_cache_dir self) save_dir None None ;;;
  comfy_utils.download_hf_file E repo "tokenizer.json" (_cache_dir self) save_dir None None ;;;
  comfy_utils.download_hf_file E repo "vocab.json" (_cache_dir self) save_dir None None ;;;
  comfy_utils.download_hf_file E repo "merges.txt" (_cache_dir self) save_dir None None ;;;
  comfy_utils.download_hf_file E repo "chat_template.json" (_cache_dir self) save_dir None None ;;;
  comfy_utils.download_hf_file E repo "preprocessor_config.json" (_cache_dir self) save_dir None None ;;;
  comfy_utils.download_hf_file E repo "generation_config.json" (_cache_dir self) save_dir None None ;;;
  comfy_utils.download_hf_file E repo "tokenizer_config.json" (_cache_dir self) save_dir None None ;;;
  comfy_utils.download_hf_file E repo "model.safetensors.index.json" (_cache_dir self) save_dir None None.

End Methods.

End QwenComfyAppBuilder.

(* ===================================================================== *)
(** ** app_builders/ace_step_comfy_app_builder.py *)
(* ===================================================================== *)

Module ACEStepComfyAppBuilder.

Definition __init__ (c : class) : attrs :=
  let self := ComfyAppBuilder.__init__ c in
  let self := set_gpu "L40S" self in
  let self := set_app_name "ace-step-comfyui" self in
  set_output_vol_name "ace-step-comfyui-output" self.

Section Methods.
(** [super()]: the methods of the parent class. *)
Variable super : vtable.

Definition _build_image (self : attrs) : modal.Image :=
  let image := vt_build_image super self in
  let image := modal.apt_install image "sox" in
  let image := modal.apt_install image "ffmpeg" in
  let image := modal.apt_install image "libportaudio2" in
  let image := modal.pip_install image "sounddevice" in
  let image := modal.pip_install image "easydict" in
  let image := modal.pip_install image "torch-complex" in
  image.

Definition _post_install_dep (self : attrs) (image : modal.Image)
    : modal.Image :=
  let image := vt_post_install_dep super self image in
  modal.pip_install image "numpy==2.2".

Definition _install_comfy_nodes (self : attrs) (image : modal.Image)
    : modal.Image :=
  let image := vt_install_comfy_nodes super self image in
  let image := modal.run_commands image
    [ "comfy node install --fast-deps ace-step";
      "comfy node install --fast-deps audiotools";
      "comfy node install --fast-deps ComfyUI-Qwen3" ] in
  image.

Definition _ace_step_download (E : Env) (self : attrs) : M unit :=
  let save_dir := _comfy_models_dir self +:+ "/TTS" in
  comfy_utils.subprocess_run E (mkdir_p save_dir) true ;;;
  comfy_utils.download_hf_snapshot E "ACE-Step/ACE-Step-v1-3.5B"
    "ACE-Step-v1-3.5B"
    (_cache_dir self)
    save_dir
    ["*.json"; "*.safetensors"] [].

Definition _qwen_download (E : Env) (self : attrs) : M unit :=
  let save_dir := _comfy_models_dir self +:+ "/Qwen/Qwen/Qwen3-14B" in
  comfy_utils.subprocess_run E (mkdir_p save_dir) true ;;;
  let repo := "Qwen/Qwen3-14B" in
  for_ (Py.range 8) (fun i =>
    comfy_utils.download_hf_file E repo
      ("model-000" +:+ Py.zfill (Py.str (i + 1)) 2 +:+ "-of-00008.safetensors")
      (_cache_dir self) save_dir None None) ;;;
  comfy_utils.download_hf_file E repo "config.json" (_cache_dir self) save_dir None None ;;;
  comfy_utils.download_hf_file E repo "tokenizer.json" (_cache_dir self) save_dir None None ;;;
  comfy_utils.download_hf_file E repo "vocab.json" (_cache_dir self) save_dir None None ;;;
  comfy_utils.download_hf_file E repo "merges.txt" (_cache_dir self) save_dir None None ;;;
  comfy_utils.download_hf_file E repo "generation_config.json" (_cache_dir self) save_dir None None ;;;
  comfy_utils.download_hf_file E repo "tokenizer_config.json" (_cache_dir self) save_dir None None ;;;
  comfy_utils.download_hf_file E repo "model.safetensors.index.json" (_cache_dir self) save_dir None None.

Definition _hf_download (E : Env) (self : attrs)
    (tokens : gmap string string) : M unit :=
  vt_hf_download super E self tokens ;;;
  _ace_step_download E self ;;;
  _qwen_download E self.

End Methods.

End ACEStepComfyAppBuilder.

(* ===================================================================== *)
(** ** app_builders/krita_comfy_app_builder.py *)
(* ===================================================================== *)

Module KritaComfyAppBuilder.

Definition __init__ (c : class) : attrs :=
  let self := ComfyAppBuilder.__init__ c in
  let self := set_gpu "T4" self in
  let self := set_app_name "krita-comfyui" self in
  set_output_vol_name "krita-comfyui-output" self.

Section Methods.
(** [super()]: the methods of the parent class. *)
Variable super : vtable.

Definition _build_image (self : attrs) : modal.Image :=
  let image := vt_build_image super self in
  let image := modal.apt_install image "libgl1" in
  let image := modal.apt_install image "libglib2.0-0" in
  image.

Definition _install_comfy_nodes (self : attrs) (image : modal.Image)
    : modal.Image :=
  let image := vt_install_comfy_nodes super self image in
  let image := modal.run_commands image
    [ "comfy node install --fast-deps comfyui_controlnet_aux";
      "comfy node install --fast-deps comfyui_ipadapter_plus";
      "comfy node install --fast-deps comfyui-inpaint-nodes";
      "comfy node install --fast-deps comfyui-tooling-nodes" ] in
  image.

Definition _illustrious_download (E : Env) (self : attrs) : M unit :=
  comfy_utils.download_hf_file E "OnomaAIResearch/Illustrious-XL-v2.0"
    "Illustrious-XL-v2.0.safetensors"
    (_cache_dir self)
    (_comfy_models_dir self +:+ "/checkpoints") None None.

Definition _clip_vision_download (E : Env) (self : attrs) : M unit :=
  comfy_utils.download_hf_file E "h94/IP-Adapter"
    "models/image_encoder/model.safetensors"
    (_cache_dir self)
    (_comfy_models_dir self +:+ "/clip_vision")
    (Some "clip-vision_vit-h.safetensors") None.

Definition _upscale_download (E : Env) (self : attrs) : M unit :=
  let upscale_models_dir := _comfy_models_dir self +:+ "/upscale_models" in
  let url := "https://objectstorage.us-phoenix-1.oraclecloud.com/n/ax6ygfvpvzka/b/open-modeldb-files/o/4x-NMKD-YandereNeo.pth" in
  comfy_utils.download_wget_file E url "4x-NMKD-YandereNeo.pth" (_cache_dir self) upscale_models_dir ;;;
  let repo := "Acly/Omni-SR" in
  comfy_utils.download_hf_file E repo "OmniSR_X2_DIV2K.safetensors" (_cache_dir self) upscale_models_dir None None ;;;
  comfy_utils.download_hf_file E repo "OmniSR_X3_DIV2K.safetensors" (_cache_dir self) upscale_models_dir None None ;;;
  comfy_utils.download_hf_file E repo "OmniSR_X4_DIV2K.safetensors" (_cache_dir self) upscale_models_dir None None ;;;
  let repo := "Acly/hat" in
  comfy_utils.download_hf_file E repo "HAT_SRx4_ImageNet-pretrain.pth" (_cache_dir self) upscale_models_dir None None ;;;
  comfy_utils.download_hf_file E repo "Real_HAT_GAN_sharper.pth" (_cache_dir self) upscale_models_dir None None.

Definition _inpaint_download (E : Env) (self : attrs)
    (tokens : gmap string string) : M unit :=
  let save_dir := _comfy_models_dir self +:+ "/inpaint" in
  comfy_utils.subprocess_run E (mkdir_p save_dir) true ;;;
  civitai_token <- getitem tokens "CIVITAI_TOKEN" ;;
  let url :=
    "https://civitai.com/api/download/models/480117?type=Model&format=SafeTensor&size=pruned&fp=fp16&token="
    +:+ civitai_token in
  comfy_utils.download_wget_file E url "animaginexl_v31Inpainting.safetensors"
    (_cache_dir self) save_dir.

Definition _controlnet_download (E : Env) (self : attrs) : M unit :=
  let controlnet_dir := _comfy_models_dir self +:+ "/controlnet" in
  let repo := "Eugeoter/noob-sdxl-controlnet-scribble_pidinet" in
  let filename := "diffusion_pytorch_model.fp16.safetensors" in
  let save_filename := "noob-sdxl-controlnet-scribble_pidinet.fp16.safetensors" in
  comfy_utils.download_hf_file E repo filename (_cache_dir self) controlnet_dir (Some save_filename) None ;;;
  let repo := "Eugeoter/noob-sdxl-controlnet-lineart_anime" in
  let filename := "diffusion_pytorch_model.fp16.safetensors" in
  let save_filename := "noob-sdxl-controlnet-lineart_anime.fp16.safetensors" in
  comfy_utils.download_hf_file E repo filename (_cache_dir self) controlnet_dir (Some save_filename) None ;;;
  let repo := "Eugeoter/noob-sdxl-controlnet-softedge_hed" in
  let filename := "diffusion_pytorch_model.fp16.safetensors" in
  let save_filename := "noob-sdxl-controlnet-softedge_hed.fp16.safetensors" in
  comfy_utils.download_hf_file E repo filename (_cache_dir self) controlnet_dir (Some save_filename) None ;;;
  let repo := "Eugeoter/noob-sdxl-controlnet-canny" in
  let filename := "noob_sdxl_controlnet_canny.fp16.safetensors" in
  comfy_utils.download_hf_file E repo filename (_cache_dir self) controlnet_dir None None ;;;
  let repo := "Eugeoter/noob-sdxl-controlnet-depth_midas-v1-1" in
  let filename := "diffusion_pytorch_model.fp16.safetensors" in
  let save_filename := "noob-sdxl-controlnet-depth_midas-v1-1.fp16.safetensors" in
  comfy_utils.download_hf_file E repo filename (_cache_dir self) controlnet_dir (Some save_filename) None ;;;
  let repo := "Eugeoter/noob-sdxl-controlnet-normal" in
  let filename := "diffusion_pytorch_model.fp16.safetensors" in
  let save_filename := "noob-sdxl-controlnet-normal.fp16.safetensors" in
  comfy_utils.download_hf_file E repo filename (_cache_dir self) controlnet_dir (Some save_filename) None ;;;
  let repo := "windsingai/Illustrious-XL-openpose-test" in
  let filename := "openpose_s6000.safetensors" in
  comfy_utils.download_hf_file E repo filename (_cache_dir self) controlnet_dir None None ;;;
  let repo := "Eugeoter/noob-sdxl-controlnet-tile" in
  let filename := "diffusion_pytorch_model.fp16.safetensors" in
  let save_filename := "noob-sdxl-controlnet-tile.fp16.safetensors" in
  comfy_utils.download_hf_file E repo filename (_cache_dir self) controlnet_dir (Some save_filename) None.

Definition _ipadapter_download (E : Env) (self : attrs) : M unit :=
  let save_dir := _comfy_models_dir self +:+ "/ipadapter" in
  comfy_utils.subprocess_run E (mkdir_p save_dir) true ;;;
  comfy_utils.download_hf_file E "h94/IP-Adapter"
    "sdxl_models/image_encoder/model.safetensors"
    (_cache_dir self)
    (_comfy_models_dir self +:+ "/clip_vision")
    (Some "clip-vision_vit-g.safetensors") None ;;;
  comfy_utils.download_hf_file E "kataragi/Noob_ipadapter"
    "ip_adapter_Noobtest_800000.bin" (_cache_dir self) save_dir None None.

Definition _hf_download (E : Env) (self : attrs)
    (tokens : gmap string string) : M unit :=
  vt_hf_download super E self tokens ;;;
  _illustrious_download E self ;;;
  _clip_vision_download E self ;;;
  _upscale_download E self ;;;
  _inpaint_download E self tokens ;;;
  _controlnet_download E self ;;;
  _ipadapter_download E self.

End Methods.

End KritaComfyAppBuilder.

(* ===================================================================== *)
(** ** Method resolution *)
(* ===================================================================== *)

(** What each class inherits and what it overrides. *)
Definition base_vtable : vtable :=
  {| vt_build_image := ComfyAppBuilder._build_image;
   vt_install_comfy_nodes := ComfyAppBuilder._install_comfy_nodes;
   vt_post_install_dep := ComfyAppBuilder._post_install_dep;
   vt_copy_files := ComfyAppBuilder._copy_files;
   vt_hf_download := ComfyAppBuilder._hf_download;
   vt_download_models := ComfyAppBuilder._download_models;
   vt_create_output_vol := ComfyAppBuilder._create_output_vol |}.

Definition override (vt : vtable)
  (build_image : option (attrs -> modal.Image))
  (install_comfy_nodes post_install_dep :
     option (attrs -> modal.Image -> modal.Image))
  (hf_download : option (Env -> attrs -> gmap string string -> M unit))
  : vtable :=
  {| vt_build_image := default (vt_build_image vt) build_image;
   vt_install_comfy_nodes :=
     default (vt_install_comfy_nodes vt) install_comfy_nodes;
   vt_post_install_dep := default (vt_post_install_dep vt) post_install_dep;
   vt_copy_files := vt_copy_files vt;
   vt_hf_download := default (vt_hf_download vt) hf_download;
   vt_download_models := vt_download_models vt;
   vt_create_output_vol := vt_create_output_vol vt |}.

Definition mro (c : class) : vtable :=
  match c with
  | C_ComfyAppBuilder => base_vtable
  | C_ACEStepComfyAppBuilder =>
    override base_vtable
      (Some (ACEStepComfyAppBuilder._build_image base_vtable))
      (Some (ACEStepComfyAppBuilder._install_comfy_nodes base_vtable))
      (Some (ACEStepComfyAppBuilder._post_install_dep base_vtable))
      (Some (ACEStepComfyAppBuilder._hf_download base_vtable))
  | C_FluxComfyAppBuilder =>
    override base_vtable None None None
      (Some (FluxComfyAppBuilder._hf_download base_vtable))
  | C_KritaComfyAppBuilder =>
    override base_vtable
      (Some (KritaComfyAppBuilder._build_image base_vtable))
      (Some (KritaComfyAppBuilder._install_comfy_nodes base_vtable))
      None
      (Some (KritaComfyAppBuilder._hf_download base_vtable))
  | C_QwenComfyAppBuilder =>
    override base_vtable None
      (Some (QwenComfyAppBuilder._install_comfy_nodes base_vtable))
      None
      (Some (QwenComfyAppBuilder._hf_download base_vtable))
  | C_WanComfyAppBuilder =>
    override base_vtable None
      (Some (WanComfyAppBuilder._install_comfy_nodes base_vtable))
      None
      (Some (WanComfyAppBuilder._hf_download base_vtable))
  end.

(** [C()]: the [__init__] of the class, then a fresh object. *)
Definition instantiate (c : class) : builder :=
  ComfyAppBuilder.new
  (match c with
   | C_ComfyAppBuilder => ComfyAppBuilder.__init__ c
   | C_ACEStepComfyAppBuilder => ACEStepComfyAppBuilder.__init__ c
   | C_FluxComfyAppBuilder => FluxComfyAppBuilder.__init__ c
   | C_KritaComfyAppBuilder => KritaComfyAppBuilder.__init__ c
   | C_QwenComfyAppBuilder => QwenComfyAppBuilder.__init__ c
   | C_WanComfyAppBuilder => WanComfyAppBuilder.__init__ c
   end).

(* ===================================================================== *)
(** ** main.py *)
(* ===================================================================== *)

Module main.

Definition REDOWNLOAD_MODELS : bool := false.

Definition APP_REGISTRY : gmap string class :=
  <[ "wan" := C_WanComfyAppBuilder ]>
  (<[ "qwen" := C_QwenComfyAppBuilder ]>
  (<[ "krita" := C_KritaComfyAppBuilder ]>
  (<[ "flux" := C_FluxComfyAppBuilder ]>
  (<[ "ace-step" := C_ACEStepComfyAppBuilder ]> ∅)))).

Section WithEnv.
Variable E : Env.

(** Lines 34-39: read [APP], normalise it, look the class up and
    instantiate it. *)
Definition select_builder : M builder :=
    app_name <- match environ_APP E with
                | Some v => ret v
                | None => raise (ValueError "Environment variable `APP` was not set")
                end ;;
    c <- getitem APP_REGISTRY (Py.strip (Py.lower app_name)) ;;
    ret (instantiate c).

(** The whole module body.  It returns the builder and the app. *)
Definition run : M (builder * modal.App) :=
    app_builder <- select_builder ;;
    r <- ComfyAppBuilder.build_app mro E app_builder None ;;
    let '(app_builder, app) := r in
    ComfyAppBuilder.print_output_volume_usage app_builder ;;;
    r <- ComfyAppBuilder.get_volumes mro E app_builder None ;;
    let '(app_builder, volumes) := r in
    emit (RegisterWebFunction
            {| wf_app := app;
               wf_max_containers := 1;
               wf_gpu := gpu (self_attrs app_builder);
               wf_volumes := volumes;
               wf_max_inputs := 10;
               wf_port := 8000;
               wf_startup_timeout := 60;
               wf_command := "comfy launch -- --listen 0.0.0.0 --port 8000" |}) ;;;
    ret (app_builder, app).

End WithEnv.

End main.


(* ===================================================================== *)
(** * Vocabulary of the properties *)
(* ===================================================================== *)

(** ** The registry, and sample environments *)

(** The five workloads of [APP_REGISTRY], as a list. *)
Definition workloads : list (string * class) :=
  [ ("ace-step", C_ACEStepComfyAppBuilder);
    ("flux", C_FluxComfyAppBuilder);
    ("krita", C_KritaComfyAppBuilder);
    ("qwen", C_QwenComfyAppBuilder);
    ("wan", C_WanComfyAppBuilder) ].

(** The claim of C1 as the spec words it: distinct workload keys give
    builders that differ in GPU tier, application name and output-volume
    name. *)
Definition all_three_unique : Prop :=
  forall k1 k2 c1 c2,
    main.APP_REGISTRY !! k1 = Some c1 ->
    main.APP_REGISTRY !! k2 = Some c2 ->
    k1 <> k2 ->
    gpu (self_attrs (instantiate c1)) <> gpu (self_attrs (instantiate c2))
    /\ _app_name (self_attrs (instantiate c1))
       <> _app_name (self_attrs (instantiate c2))
    /\ _output_vol_name (self_attrs (instantiate c1))
       <> _output_vol_name (self_attrs (instantiate c2)).

(** The message of the [ValueError] of main.py. *)
Definition unset_message : string := "Environment variable `APP` was not set".

(** An environment in which every download succeeds; [app] is the value of
    the variable APP and [toks] the contents of tokens.json. *)
Definition friendly_env (app : option string)
    (toks : option (gmap string string)) : Env :=
  {| environ_APP := app;
     tokens_json := toks;
     hf_hub_download := fun _ repo filename cache_dir _ =>
       Some (cache_dir +:+ "/" +:+ repo +:+ "/" +:+ filename);
     snapshot_download := fun _ repo _ _ cache_dir =>
       Some (cache_dir +:+ "/" +:+ repo);
     shell := fun _ _ => 0 |}.

(** ** What a run appends to the trace *)

(** [appends m Q]: from any trace, [m] only appends events, and its result
    and the appended events satisfy [Q]. *)
Definition appends {A} (m : M A) (Q : result A -> list event -> Prop) : Prop :=
  forall tr, exists evs, snd (m tr) = tr ++ evs /\ Q (fst (m tr)) evs.

(** The line [download_hf_file] prints first. *)
Definition hf_file_message (repo filename : string) : event :=
  Print ("Downloading " +:+ repo +:+ "/" +:+ filename).

(** ** Failed steps *)

(** The exception a step raises when it fails: a hub call that raised, or a
    command that exited with a non-zero status under [check=True]. *)
Definition exn_of (ev : event) : option exn :=
  match ev with
  | HfHubDownload _ _ _ _ None => Some HubError
  | SnapshotDownload _ _ _ _ None => Some HubError
  | SubprocessRun cmd rc =>
      if rc =? 0 then None else Some (CalledProcessError rc (render cmd))
  | _ => None
  end.

(** Fetch attempts and link attempts, whatever their outcome. *)
Definition is_fetch (ev : event) : bool :=
  match ev with
  | HfHubDownload _ _ _ _ _ => true
  | SnapshotDownload _ _ _ _ _ => true
  | SubprocessRun (wget_q_O _ _) _ => true
  | _ => false
  end.

Definition is_link (ev : event) : bool :=
  match ev with
  | SubprocessRun (ln_s _ _) _ => true
  | _ => false
  end.

Definition fetch_attempts (evs : list event) : nat :=
  length (List.filter is_fetch evs).
Definition link_attempts (evs : list event) : nat :=
  length (List.filter is_link evs).

(** A failed step is the last thing that happened, and the run raised its
    exception. *)
Definition fails_last {A} (r : result A) (evs : list event) : Prop :=
  forall evs1 ev evs2 e,
    evs = evs1 ++ ev :: evs2 -> exn_of ev = Some e ->
    evs2 = [] /\ r = Raise e.

(** The same, in the shape that composes along [bind]. *)
Definition clean (evs : list event) : Prop :=
  Forall (fun ev => exn_of ev = None) evs.

Definition fails_last_c {A} (r : result A) (evs : list event) : Prop :=
  match r with
  | Ok _ => clean evs
  | Raise e =>
      clean evs
      \/ exists evs0 ev, evs = evs0 ++ [ev] /\ clean evs0 /\ exn_of ev = Some e
  end.

Definition aborting {A} (m : M A) : Prop := appends m fails_last_c.

(** One fetch attempt, at most one link attempt (exactly one when the
    helper returns), and any failure is final. *)
Definition once_and_fatal (m : M unit) : Prop :=
  forall tr, exists evs,
    snd (m tr) = tr ++ evs
    /\ fetch_attempts evs = 1%nat
    /\ (link_attempts evs <= 1)%nat
    /\ (fst (m tr) = Ok tt -> link_attempts evs = 1%nat)
    /\ fails_last (fst (m tr)) evs.

(** ** How [sh -c] reads a command line

    [subprocess.run(line, shell=True)] hands [line] to [sh -c].  The texts
    the sources write into a line hold no quote, backslash, dollar sign,
    semicolon, bar, parenthesis or redirection; of the operators of the
    shell only a single ["&"] occurs, inside the Civitai URLs, which the
    sources put into the line unquoted.  This is the reading of such lines:
    ["&"] ends a command and starts it in the background, and the status of
    the line is the status of what follows the last ["&"]: 0 when nothing
    follows or when only variable assignments follow, the status of the
    command otherwise.  (A word with a question mark, as in the URLs, is a
    pattern that [sh] leaves as it is when no file name matches it.) *)
Module sh.

Definition is_amp (c : ascii) : bool := Ascii.eqb c "&".
Definition is_blank (c : ascii) : bool :=
  Ascii.eqb c " " || Ascii.eqb c "009".

(** The text between the separators, empty fields included. *)
Fixpoint split_on (sep : ascii -> bool) (s : string) : list string :=
  match s with
  | EmptyString => [EmptyString]
  | String c rest =>
      if sep c then EmptyString :: split_on sep rest
      else match split_on sep rest with
           | [] => [String c EmptyString]
           | p :: ps => String c p :: ps
           end
  end.

(** The commands of a line, and the words of a command. *)
Definition pieces (line : string) : list string := split_on is_amp line.
Definition words (piece : string) : list string :=
  filter (fun w => negb (String.eqb w EmptyString))
    (split_on is_blank piece).

(** The first command of a line: the text before the first ["&"]. *)
Fixpoint first_piece (line : string) : string :=
  match line with
  | EmptyString => EmptyString
  | String c rest =>
      if is_amp c then EmptyString else String c (first_piece rest)
  end.

Definition last_piece (line : string) : string :=
  List.last (pieces line) EmptyString.

(** A word [name=value]. *)
Definition is_name_start (c : ascii) : bool :=
  let n := Py.ord c in
  (((65 <=? n) && (n <=? 90)) || ((97 <=? n) && (n <=? 122)) || (n =? 95))%N.
Definition is_name_char (c : ascii) : bool :=
  let n := Py.ord c in
  is_name_start c || ((48 <=? n) && (n <=? 57))%N.
Fixpoint name_then_equals (s : string) : bool :=
  match s with
  | EmptyString => false
  | String c rest =>
      if Ascii.eqb c "=" then true
      else is_name_char c && name_then_equals rest
  end.
Definition is_assignment (word : string) : bool :=
  match word with
  | EmptyString => false
  | String c rest => is_name_start c && name_then_equals rest
  end.

(** The exit status of a line, from the status [run] of a command. *)
Definition status (run : string -> Z) (line : string) : Z :=
  let p := last_piece line in
  if forallb is_assignment (words p) then 0 else run p.

End sh.

(** The world as the program meets it: in [E] the [shell] oracle gives the
    status of each command; in [through_sh E] it gives the status [sh -c]
    reports for the line. *)
Definition through_sh (E : Env) : Env :=
  {| environ_APP := environ_APP E;
     tokens_json := tokens_json E;
     hf_hub_download := hf_hub_download E;
     snapshot_download := snapshot_download E;
     shell := fun tr line => sh.status (shell E tr) line |}.

(** A [wget] that exits with status 8 whatever it is asked to fetch. *)
Definition failing_wget (tr : list event) (cmd : string) : Z :=
  if String.prefix "wget " cmd then 8 else 0.

(** An outside world in which the hub answers and [wget] always exits with
    status 8; the lines go through [sh]. *)
Definition wget_fails_env (toks : option (gmap string string)) : Env :=
  through_sh
    {| environ_APP := Some "wan";
       tokens_json := toks;
       hf_hub_download := fun _ repo filename cache_dir _ =>
         Some (cache_dir +:+ "/" +:+ repo +:+ "/" +:+ filename);
       snapshot_download := fun _ repo _ _ cache_dir =>
         Some (cache_dir +:+ "/" +:+ repo);
       shell := failing_wget |}.

(** A tokens.json with the Civitai token only. *)
Definition civitai_tokens : gmap string string :=
  <[ "CIVITAI_TOKEN" := "c1v1t41" ]> ∅.

(** ** Cache entries and links *)

(** What a fetch puts into the cache: a file of a hub repository, a snapshot
    of a hub repository, or the file [wget] writes. *)
Inductive cache_entry : Type :=
| HubFile (repo filename : string)
| HubSnapshot (repo : string)
| WgetFile (path : string).

#[global] Instance cache_entry_eq_dec : EqDecision cache_entry.
Proof. solve_decision. Defined.

Definition entry_of (ev : event) : list cache_entry :=
  match ev with
  | HfHubDownload repo filename _ _ _ => [HubFile repo filename]
  | SnapshotDownload repo _ _ _ _ => [HubSnapshot repo]
  | SubprocessRun (wget_q_O path _) _ => [WgetFile path]
  | _ => []
  end.

(** The cache path of a fetch step that reported success: the path a hub
    call returned, or the output path of a [wget] line whose status was 0.
    The status is that of the line as [sh] reports it; for a line that
    holds a ["&"] it is not the status of [wget] (see [sh.status]). *)
Definition fetched_of (ev : event) : list string :=
  match ev with
  | HfHubDownload _ _ _ _ (Some path) => [path]
  | SnapshotDownload _ _ _ _ (Some path) => [path]
  | SubprocessRun (wget_q_O path _) rc => if rc =? 0 then [path] else []
  | _ => []
  end.

(** The link a successful [ln -s target link_name] created. *)
Definition link_of (ev : event) : list (string * string) :=
  match ev with
  | SubprocessRun (ln_s target link_name) rc =>
      if rc =? 0 then [(target, link_name)] else []
  | _ => []
  end.

Definition cache_entries (evs : list event) : list cache_entry :=
  flat_map entry_of evs.
Definition fetched (evs : list event) : list string :=
  flat_map fetched_of evs.
Definition links (evs : list event) : list (string * string) :=
  flat_map link_of evs.

(** On success: the entries fetched are [S], the link names created are
    [L], and the i-th link points to the i-th fetched path. *)
Definition linked (S : list cache_entry) (L : list string) {A}
    (r : result A) (evs : list event) : Prop :=
  match r with
  | Ok _ =>
      cache_entries evs = S
      /\ map snd (links evs) = L
      /\ map fst (links evs) = fetched evs
  | Raise _ => True
  end.

Definition links_all {A} (m : M A) (S : list cache_entry) (L : list string)
    : Prop :=
  appends m (linked S L).

(** Link names lie inside the model directory of the builder. *)
Definition in_models_tree (self : attrs) (link_name : string) : Prop :=
  String.prefix (_comfy_models_dir self +:+ "/") link_name = true.

(** A helper that returns has fetched one artefact and created one link,
    from [link_name] to the fetched path. *)
Definition one_link (m : M unit) (link_name : string) : Prop :=
  forall tr tr', m tr = (Ok tt, tr') ->
    exists evs path,
      tr' = tr ++ evs /\ fetched evs = [path]
      /\ links evs = [(path, link_name)].

(** The number of links that point to the cache path [p]. *)
Definition links_to (p : string) (evs : list event) : nat :=
  count_occ string_dec (map fst (links evs)) p.

(** The links whose name lies under the directory [dir]. *)
Definition links_under (dir : string) (evs : list event)
    : list (string * string) :=
  List.filter (fun l => String.prefix (dir +:+ "/") (snd l)) (links evs).

(** Names of the video workload. *)
Definition wan_repo : string := "Comfy-Org/Wan_2.1_ComfyUI_repackaged".
Definition wan_gguf : string := "liveWallpaperFast_i2v14B720P.gguf".
Definition wan_umt5 : string := "umt5_xxl_fp8_e4m3fn_scaled.safetensors".

(** ** The pipeline and its overrides *)

(** The calls of the pipeline found in a trace: the stage, the image it
    received and the image it returned. *)
Definition stage_calls (evs : list event)
    : list (stage * option modal.Image * modal.Image) :=
  flat_map (fun ev => match ev with
                      | StageCall s input output => [(s, input, output)]
                      | _ => []
                      end) evs.

(** The cache volume of [_download_models]. *)
Definition hf_hub_cache : modal.Volume :=
  modal.Volume_from_name "hf-hub-cache" true.

(** The image after the model-download stage, given the image before it. *)
Definition with_models (a : attrs) (image : modal.Image) (redownload : bool)
    (toks : gmap string string) : modal.Image :=
  image ++ [ modal.env_ [("HF_HUB_ENABLE_HF_TRANSFER", "1")];
             modal.run_function_ (modal.Bound_hf_download a)
               {[ _cache_dir a := hf_hub_cache ]} redownload toks ].

(** An override of [_build_image] with parent [sup] returns the parent's
    image followed by steps of its own, which do not depend on the parent. *)
Definition extends_build_image (f : vtable -> attrs -> modal.Image) : Prop :=
  forall self, exists own,
    forall sup, f sup self = vt_build_image sup self ++ own.

(** The same for a stage that transforms an image; [parent] selects the
    overridden method. *)
Definition extends_stage
    (parent : vtable -> attrs -> modal.Image -> modal.Image)
    (f : vtable -> attrs -> modal.Image -> modal.Image) : Prop :=
  forall self, exists own,
    forall sup image, f sup self image = parent sup self image ++ own.

(** An override of [_hf_download] runs the parent's method first and then
    steps of its own, which do not depend on the parent. *)
Definition extends_hf_download
    (f : vtable -> Env -> attrs -> gmap string string -> M unit) : Prop :=
  forall E self tokens, exists own : M unit,
    forall sup tr,
      f sup E self tokens tr
      = bind (vt_hf_download sup E self tokens) (fun _ => own) tr.

(** ** The model-download step *)

Definition is_run_function (l : modal.layer) : bool :=
  match l with
  | modal.run_function_ _ _ _ _ => true
  | _ => false
  end.

(** The [run_function] steps of an image. *)
Definition run_functions (image : modal.Image) : list modal.layer :=
  List.filter is_run_function image.

(** The model-download step the pipeline adds for [self]. *)
Definition download_step (a : attrs) (force_build : bool)
    (toks : gmap string string) : modal.layer :=
  modal.run_function_ (modal.Bound_hf_download a)
    {[ _cache_dir a := hf_hub_cache ]} force_build toks.


(** ** Further vocabulary: the entry point *)

(** The normalisation main.py applies to the value of APP. *)
Definition normalise (v : string) : string := Py.strip (Py.lower v).

(** The environment [E] with the variable APP set to [v]. *)
Definition with_APP (E : Env) (v : string) : Env :=
  {| environ_APP := Some v;
     tokens_json := tokens_json E;
     hf_hub_download := hf_hub_download E;
     snapshot_download := snapshot_download E;
     shell := shell E |}.

(** The lines a trace printed. *)
Definition printed (evs : list event) : list string :=
  flat_map (fun ev => match ev with Print line => [line] | _ => [] end) evs.

(** The web functions a trace registered. *)
Definition registered (evs : list event) : list web_function :=
  flat_map (fun ev => match ev with
                      | RegisterWebFunction f => [f]
                      | _ => []
                      end) evs.

(** The stages named in a trace, in order. *)
Definition stages_called (evs : list event) : list stage :=
  map (fun x => fst (fst x)) (stage_calls evs).

(** The two hints [print_output_volume_usage] prints for a volume name. *)
Definition usage_hints (name : string) : list string :=
  [ "`modal volume get " +:+ name +:+ " <file>` to download output generations";
    "`modal volume delete " +:+ name +:+ " -y` to delete the output volume" ].

(** ** Further vocabulary: the steps of an image *)

(** The position of the first element that satisfies [P]. *)
Fixpoint find_index {A} (P : A -> bool) (l : list A) : option nat :=
  match l with
  | [] => None
  | x :: r => if P x then Some O else option_map S (find_index P r)
  end.

(** The image has a step satisfying [P] before its first step satisfying
    [Q] (so before all of them), and has both. *)
Definition precedes (P Q : modal.layer -> bool) (image : modal.Image) : Prop :=
  exists i j,
    find_index P image = Some i /\ find_index Q image = Some j /\ (i < j)%nat.

Definition is_apt_install (package : string) (l : modal.layer) : bool :=
  match l with
  | modal.apt_install_ p => String.eqb p package
  | _ => false
  end.

Definition is_pip_install (package : string) (l : modal.layer) : bool :=
  match l with
  | modal.pip_install_ p => String.eqb p package
  | _ => false
  end.

(** A [run_commands] step with a command of the [comfy] tool. *)
Definition runs_comfy_cli (l : modal.layer) : bool :=
  match l with
  | modal.run_commands_ cmds => existsb (String.prefix "comfy ") cmds
  | _ => false
  end.

(** A [run_commands] step that installs a custom node. *)
Definition installs_comfy_node (l : modal.layer) : bool :=
  match l with
  | modal.run_commands_ cmds =>
      existsb (String.prefix "comfy node install ") cmds
  | _ => false
  end.

Definition copies_comfy_utils (l : modal.layer) : bool :=
  match l with
  | modal.add_local_python_source_ m _ => String.eqb m "comfy_utils"
  | _ => false
  end.

Definition sets_hf_transfer (l : modal.layer) : bool :=
  match l with
  | modal.env_ vars =>
      existsb (fun kv => String.eqb (fst kv) "HF_HUB_ENABLE_HF_TRANSFER"
                         && String.eqb (snd kv) "1") vars
  | _ => false
  end.

(** Any step that installs software: a package or a custom node. *)
Definition installs_software (l : modal.layer) : bool :=
  match l with
  | modal.apt_install_ _ | modal.pip_install_ _ => true
  | _ => installs_comfy_node l || runs_comfy_cli l
  end.

(** ** Further vocabulary: invariants of the download stage *)

(** A property of appended traces that holds of the empty trace and is kept
    by concatenation. *)
Definition trace_inv (Q : list event -> Prop) : Prop :=
  Q [] /\ forall e1 e2, Q e1 -> Q e2 -> Q (e1 ++ e2).

(** [keeps Q m]: whatever [m] appends to the trace satisfies [Q], whether
    [m] returns or raises. *)
Definition keeps (Q : list event -> Prop) {A} (m : M A) : Prop :=
  appends m (fun _ evs => Q evs).

Definition schnell_repo : string := "black-forest-labs/FLUX.1-schnell".

(** The commands [wget] can be started with by a builder made by its
    constructor: the text [sh] runs, which for the two Civitai downloads
    ends before the first ["&"] of the URL. *)
Definition wget_commands : list string :=
  [ "wget -q -O /cache/liveWallpaperFast_i2v14B720P.gguf https://civitai.com/api/download/models/1873761?type=Model";
    "wget -q -O /cache/4x-NMKD-YandereNeo.pth https://objectstorage.us-phoenix-1.oraclecloud.com/n/ax6ygfvpvzka/b/open-modeldb-files/o/4x-NMKD-YandereNeo.pth";
    "wget -q -O /cache/animaginexl_v31Inpainting.safetensors https://civitai.com/api/download/models/480117?type=Model" ].

(** Where the credentials of [tokens] go in a step: a hub fetch carries a
    token only for the FLUX.1-schnell repository, and then the value of
    HF_TOKEN; [wget] is started with one of the fixed texts of
    [wget_commands], whatever [tokens] holds. *)
Definition token_confined (tokens : gmap string string) (ev : event) : Prop :=
  match ev with
  | HfHubDownload repo _ _ (Some t) _ =>
      repo = schnell_repo /\ tokens !! "HF_TOKEN" = Some t
  | SubprocessRun (wget_q_O output url) _ =>
      In (sh.first_piece (render (wget_q_O output url))) wget_commands
  | _ => True
  end.

(** What a step of the download stage of [self] may touch: it prints a
    "Downloading" line, fetches into the cache directory, lets [wget] write
    a file directly into the cache directory, or makes a directory or a
    link inside the model directory tree.  It removes nothing and does none
    of the steps of the local build. *)
Definition in_footprint (self : attrs) (ev : event) : Prop :=
  match ev with
  | Print line => String.prefix "Downloading " line = true
  | HfHubDownload _ _ cache_dir _ _ => cache_dir = _cache_dir self
  | SnapshotDownload _ _ _ cache_dir _ => cache_dir = _cache_dir self
  | SubprocessRun (wget_q_O output _) _ =>
      String.prefix (_cache_dir self +:+ "/") output = true
  | SubprocessRun (ln_s _ link_name) _ => in_models_tree self link_name
  | SubprocessRun (mkdir_p dir) _ => in_models_tree self dir
  | SubprocessRun (rm_rf _) _ => False
  | OpenTokens _ => False
  | StageCall _ _ _ => False
  | RegisterWebFunction _ => False
  end.

(** Every URL handed to [wget] was printed in full just before. *)
Definition wget_urls_printed (evs : list event) : Prop :=
  forall output url rc,
    In (SubprocessRun (wget_q_O output url) rc) evs ->
    In (Print ("Downloading " +:+ url)) evs.

(** The keys of tokens.json the download stage of a class reads. *)
Definition required_tokens (c : class) : list string :=
  match c with
  | C_FluxComfyAppBuilder => ["HF_TOKEN"]
  | C_KritaComfyAppBuilder => ["CIVITAI_TOKEN"]
  | C_WanComfyAppBuilder => ["CIVITAI_TOKEN"]
  | _ => []
  end.

(** An outside world in which no hub call raises and every command exits
    with status 0. *)
Definition cooperative (E : Env) : Prop :=
  (forall tr repo filename cache_dir token,
     is_Some (hf_hub_download E tr repo filename cache_dir token))
  /\ (forall tr repo allow ignore cache_dir,
        is_Some (snapshot_download E tr repo allow ignore cache_dir))
  /\ (forall tr cmd, shell E tr cmd = 0).

(** [m] returns from every trace; [m] raises from every trace. *)
Definition returns {A} (m : M A) : Prop :=
  forall tr, exists a, fst (m tr) = Ok a.
Definition never_returns {A} (m : M A) : Prop :=
  forall tr, exists e, fst (m tr) = Raise e.

(** In a run that may have aborted: the i-th link points to the path of
    the i-th fetch step that reported success, at most the last such path
    has no link yet, and none is missing when the run returned. *)
Definition links_follow_fetches {A} (r : result A) (evs : list event)
    : Prop :=
  map fst (links evs) `prefix_of` fetched evs
  /\ (length (fetched evs) <= S (length (links evs)))%nat
  /\ match r with
     | Ok _ => map fst (links evs) = fetched evs
     | Raise _ => True
     end.

(** Steps of the local build: no hub call and no command. *)
Definition is_local (ev : event) : bool :=
  match ev with
  | Print _ | OpenTokens _ | StageCall _ _ _ | RegisterWebFunction _ => true
  | HfHubDownload _ _ _ _ _ | SnapshotDownload _ _ _ _ _
  | SubprocessRun _ _ => false
  end.

(* ===================================================================== *)
(** * Properties *)
(* ===================================================================== *)

(** ** The workload registry *)

Lemma registry_lookup (k : string) :
  main.APP_REGISTRY !! k =
    if decide ("wan" = k) then Some C_WanComfyAppBuilder
    else if decide ("qwen" = k) then Some C_QwenComfyAppBuilder
    else if decide ("krita" = k) then Some C_KritaComfyAppBuilder
    else if decide ("flux" = k) then Some C_FluxComfyAppBuilder
    else if decide ("ace-step" = k) then Some C_ACEStepComfyAppBuilder
    else None.
Proof.
  unfold main.APP_REGISTRY.
  rewrite !lookup_insert, lookup_empty. reflexivity.
Qed.

Lemma registry_is_workloads (k : string) (c : class) :
  main.APP_REGISTRY !! k = Some c <-> In (k, c) workloads.
Proof.
  rewrite registry_lookup. unfold workloads. simpl. split.
  - intros H. repeat case_decide; simplify_eq; auto 10.
  - intros H. repeat destruct H as [H | H]; try contradiction;
      inversion H; subst; reflexivity.
Qed.

Lemma registry_miss (k : string) :
  main.APP_REGISTRY !! k = None <-> ~ In k (map fst workloads).
Proof.
  rewrite registry_lookup. simpl. split.
  - intros H. repeat case_decide; try discriminate. tauto.
  - intros H. repeat case_decide; try reflexivity; exfalso; apply H; auto 10.
Qed.

(** C1, counterexample: flux and krita are distinct workloads and both
    declare the GPU tier T4, so the GPU tier is not unique. *)
Lemma C1_gpu_tier_is_shared : ~ all_three_unique.
Proof.
  intros H.
  destruct (H "flux" "krita" C_FluxComfyAppBuilder C_KritaComfyAppBuilder)
    as [Hgpu _]; [reflexivity | reflexivity | discriminate |].
  apply Hgpu. reflexivity.
Qed.

(** C1, amended: across the five registered workloads the application name
    and the output-volume name are unique; the GPU tier is one of T4, L40S
    and A100-80GB and two workloads share it exactly when they are
    flux and krita (T4) or ace-step and wan (L40S). *)
Theorem C1_names_unique_gpu_shared (k1 k2 : string) (c1 c2 : class) :
  main.APP_REGISTRY !! k1 = Some c1 ->
  main.APP_REGISTRY !! k2 = Some c2 ->
  k1 <> k2 ->
  _app_name (self_attrs (instantiate c1))
    <> _app_name (self_attrs (instantiate c2))
  /\ _output_vol_name (self_attrs (instantiate c1))
     <> _output_vol_name (self_attrs (instantiate c2))
  /\ (gpu (self_attrs (instantiate c1)) = gpu (self_attrs (instantiate c2))
      <-> In (k1, k2) [("flux", "krita"); ("krita", "flux");
                       ("ace-step", "wan"); ("wan", "ace-step")]).
Proof.
  intros H1 H2 Hne.
  apply registry_is_workloads in H1, H2.
  unfold workloads in H1, H2. simpl in H1, H2.
  repeat destruct H1 as [H1 | H1]; try contradiction;
    repeat destruct H2 as [H2 | H2]; try contradiction;
    inversion H1; inversion H2; subst; try congruence;
    (split; [discriminate | split; [discriminate |]]);
    (split; [intros Hg; first [discriminate Hg | simpl; auto 10]
            | intros Hin; simpl in Hin;
              repeat destruct Hin as [Hin | Hin]; try contradiction;
              first [discriminate Hin | reflexivity]]).
Qed.

Lemma C1_names_unique_gpu_shared_witness :
  _app_name (self_attrs (instantiate C_FluxComfyAppBuilder))
    <> _app_name (self_attrs (instantiate C_WanComfyAppBuilder))
  /\ _output_vol_name (self_attrs (instantiate C_FluxComfyAppBuilder))
     <> _output_vol_name (self_attrs (instantiate C_WanComfyAppBuilder))
  /\ (gpu (self_attrs (instantiate C_FluxComfyAppBuilder))
        = gpu (self_attrs (instantiate C_WanComfyAppBuilder))
      <-> In ("flux", "wan") [("flux", "krita"); ("krita", "flux");
                              ("ace-step", "wan"); ("wan", "ace-step")]).
Proof.
  apply (C1_names_unique_gpu_shared "flux" "wan");
    [reflexivity | reflexivity | discriminate].
Defined.

(** ** Configuration errors *)

Example lower_strip_FLUX : Py.strip (Py.lower "FLUX ") = "flux".
Proof. reflexivity. Qed.

Example lower_strip_Wan : Py.strip (Py.lower " Wan") = "wan".
Proof. reflexivity. Qed.

Example lower_strip_tab_newline :
  Py.strip (Py.lower (String "009" "Ace-Step" +:+ String "010" "")) = "ace-step".
Proof. reflexivity. Qed.

Example first_shard_name :
  "model-000" +:+ Py.zfill (Py.str (0 + 1)) 2 +:+ "-of-00018.safetensors"
  = "model-00001-of-00018.safetensors".
Proof. reflexivity. Qed.

Example last_shard_name :
  "model-000" +:+ Py.zfill (Py.str (17 + 1)) 2 +:+ "-of-00018.safetensors"
  = "model-00018-of-00018.safetensors".
Proof. reflexivity. Qed.

Example strip_keeps_inner_space : Py.strip (Py.lower " fl ux ") = "fl ux".
Proof. reflexivity. Qed.

Lemma select_builder_eq (E : Env) (tr : list event) :
  main.select_builder E tr =
    match environ_APP E with
    | None => (Raise (ValueError unset_message), tr)
    | Some v =>
        match main.APP_REGISTRY !! Py.strip (Py.lower v) with
        | Some c => (Ok (instantiate c), tr)
        | None => (Raise (KeyError (Py.strip (Py.lower v))), tr)
        end
    end.
Proof.
  unfold main.select_builder, bind, getitem.
  destruct (environ_APP E) as [v |]; [| reflexivity].
  unfold ret at 1.
  destruct (main.APP_REGISTRY !! Py.strip (Py.lower v)); reflexivity.
Qed.

(** C2: with APP unset the entry point raises [ValueError] and nothing
    else has happened: the trace is unchanged, so no pipeline stage was
    called and no web function was registered.  With APP set to a value
    whose key is not in the registry the lookup raises [KeyError], again
    with the trace unchanged. *)
Theorem C2_configuration_errors_are_immediate (E : Env) (tr : list event) :
  (environ_APP E = None ->
     main.run E tr = (Raise (ValueError unset_message), tr))
  /\ (forall v,
        environ_APP E = Some v ->
        main.APP_REGISTRY !! Py.strip (Py.lower v) = None ->
        main.run E tr = (Raise (KeyError (Py.strip (Py.lower v))), tr)).
Proof.
  split.
  - intros H. unfold main.run, bind at 1.
    rewrite select_builder_eq, H. reflexivity.
  - intros v H Hmiss. unfold main.run, bind at 1.
    rewrite select_builder_eq, H, Hmiss. reflexivity.
Qed.

Lemma C2_configuration_errors_are_immediate_witness :
  main.run (friendly_env None None) [] = (Raise (ValueError unset_message), [])
  /\ main.run (friendly_env (Some "sdxl") None) []
     = (Raise (KeyError "sdxl"), []).
Proof.
  split.
  - apply (proj1 (C2_configuration_errors_are_immediate
                    (friendly_env None None) [])).
    reflexivity.
  - apply (proj2 (C2_configuration_errors_are_immediate
                    (friendly_env (Some "sdxl") None) []) "sdxl");
      reflexivity.
Defined.

(** C10: the value of APP is lower-cased and stripped before the lookup.
    If the normalised value is the key of a workload, selection returns a
    fresh builder of that workload's class; otherwise (and only then) the
    lookup raises [KeyError] on the normalised value. *)
Theorem C10_selector_is_normalised (E : Env) (tr : list event) (v : string) :
  environ_APP E = Some v ->
  let key := Py.strip (Py.lower v) in
  (forall c, In (key, c) workloads ->
     main.select_builder E tr = (Ok (instantiate c), tr))
  /\ (~ In key (map fst workloads) ->
      main.select_builder E tr = (Raise (KeyError key), tr))
  /\ ((exists e, main.select_builder E tr = (Raise e, tr)) ->
      ~ In key (map fst workloads)).
Proof.
  intros H key.
  assert (Hsel : main.select_builder E tr =
                 match main.APP_REGISTRY !! key with
                 | Some c => (Ok (instantiate c), tr)
                 | None => (Raise (KeyError key), tr)
                 end).
  { rewrite select_builder_eq, H. reflexivity. }
  split; [| split].
  - intros c Hin. apply registry_is_workloads in Hin.
    rewrite Hsel, Hin. reflexivity.
  - intros Hout. apply registry_miss in Hout.
    rewrite Hsel, Hout. reflexivity.
  - intros [e He]. apply registry_miss.
    rewrite Hsel in He.
    destruct (main.APP_REGISTRY !! key); [discriminate | reflexivity].
Qed.

Lemma C10_selector_is_normalised_witness :
  main.select_builder (friendly_env (Some "FLUX ") None) []
    = (Ok (instantiate C_FluxComfyAppBuilder), [])
  /\ main.select_builder (friendly_env (Some " Wan") None) []
     = (Ok (instantiate C_WanComfyAppBuilder), []).
Proof.
  split.
  - apply (proj1 (C10_selector_is_normalised
                    (friendly_env (Some "FLUX ") None) [] "FLUX " eq_refl)).
    simpl. auto.
  - apply (proj1 (C10_selector_is_normalised
                    (friendly_env (Some " Wan") None) [] " Wan" eq_refl)).
    simpl. auto 10.
Defined.

(** ** Reasoning about runs: what a computation appends to the trace *)

Lemma appends_ret {A} (a : A) (Q : result A -> list event -> Prop) :
  Q (Ok a) [] -> appends (ret a) Q.
Proof. intros H tr. exists []. simpl. rewrite app_nil_r. auto. Qed.

Lemma appends_raise {A} (e : exn) (Q : result A -> list event -> Prop) :
  Q (Raise e) [] -> appends (raise e) Q.
Proof. intros H tr. exists []. simpl. rewrite app_nil_r. auto. Qed.

Lemma appends_bind {A B} (m : M A) (k : A -> M B)
    (Q1 : result A -> list event -> Prop)
    (Q2 : A -> result B -> list event -> Prop)
    (Q : result B -> list event -> Prop) :
  appends m Q1 ->
  (forall a, appends (k a) (Q2 a)) ->
  (forall a e1 r e2, Q1 (Ok a) e1 -> Q2 a r e2 -> Q r (e1 ++ e2)) ->
  (forall e e1, Q1 (Raise e) e1 -> Q (Raise e) e1) ->
  appends (bind m k) Q.
Proof.
  intros Hm Hk Hok Hraise tr. unfold bind.
  destruct (Hm tr) as (e1 & Htr & HQ1).
  destruct (m tr) as [[a | e] tr1]; simpl in *; subst tr1.
  - destruct (Hk a (tr ++ e1)) as (e2 & Htr2 & HQ2).
    exists (e1 ++ e2). rewrite Htr2, app_assoc. split; [reflexivity |].
    eapply Hok; eauto.
  - exists e1. split; [reflexivity |]. apply Hraise, HQ1.
Qed.

Lemma appends_weaken {A} (m : M A) (Q Q' : result A -> list event -> Prop) :
  appends m Q -> (forall r evs, Q r evs -> Q' r evs) -> appends m Q'.
Proof.
  intros H Himp tr. destruct (H tr) as (evs & ? & ?). exists evs. auto.
Qed.

(** Inversion of a successful bind. *)
Lemma bind_ok_inv {A B} (m : M A) (k : A -> M B) tr (b : B) tr' :
  bind m k tr = (Ok b, tr') ->
  exists a tr1, m tr = (Ok a, tr1) /\ k a tr1 = (Ok b, tr').
Proof.
  unfold bind. destruct (m tr) as [[a | e] tr1]; [eauto | discriminate].
Qed.

(** ** The download helpers, step by step *)

Section Helpers.
Variable E : Env.

Lemma subprocess_run_checked (cmd : shell_cmd) (tr : list event) :
  comfy_utils.subprocess_run E cmd true tr =
    let rc := shell E tr (render cmd) in
    (if rc =? 0 then Ok tt else Raise (CalledProcessError rc (render cmd)),
     tr ++ [SubprocessRun cmd rc]).
Proof.
  unfold comfy_utils.subprocess_run. simpl.
  destruct (shell E tr (render cmd) =? 0); reflexivity.
Qed.

Lemma download_hf_file_eq repo filename cache_dir save_dir save_filename
    token tr :
  comfy_utils.download_hf_file E repo filename cache_dir save_dir
    save_filename token tr =
    let tr1 := tr ++ [hf_file_message repo filename] in
    let r := hf_hub_download E tr1 repo filename cache_dir token in
    let tr2 := tr1 ++ [HfHubDownload repo filename cache_dir token r] in
    match r with
    | None => (Raise HubError, tr2)
    | Some path =>
        let link :=
          ln_s path (save_dir +:+ "/" +:+ default filename save_filename) in
        let rc := shell E tr2 (render link) in
        (if rc =? 0 then Ok tt
         else Raise (CalledProcessError rc (render link)),
         tr2 ++ [SubprocessRun link rc])
    end.
Proof.
  unfold comfy_utils.download_hf_file, bind, print, emit,
    comfy_utils.hf_hub_download_, hf_file_message.
  cbv zeta.
  destruct (hf_hub_download E _ repo filename cache_dir token) as [path |];
    [| reflexivity].
  rewrite subprocess_run_checked.
  destruct save_filename; reflexivity.
Qed.

Lemma download_hf_snapshot_eq repo dir_name cache_dir save_dir allow ignore tr :
  comfy_utils.download_hf_snapshot E repo dir_name cache_dir save_dir
    allow ignore tr =
    let tr1 := tr ++ [Print ("Downloading " +:+ repo)] in
    let r := snapshot_download E tr1 repo allow ignore cache_dir in
    let tr2 := tr1 ++ [SnapshotDownload repo allow ignore cache_dir r] in
    match r with
    | None => (Raise HubError, tr2)
    | Some path =>
        let link := ln_s path (save_dir +:+ "/" +:+ dir_name) in
        let rc := shell E tr2 (render link) in
        (if rc =? 0 then Ok tt
         else Raise (CalledProcessError rc (render link)),
         tr2 ++ [SubprocessRun link rc])
    end.
Proof.
  unfold comfy_utils.download_hf_snapshot, bind, print, emit,
    comfy_utils.snapshot_download_.
  cbv zeta.
  destruct (snapshot_download E _ repo allow ignore cache_dir) as [path |];
    [| reflexivity].
  rewrite subprocess_run_checked. reflexivity.
Qed.

Lemma download_wget_file_eq url filename cache_dir save_dir tr :
  comfy_utils.download_wget_file E url filename cache_dir save_dir tr =
    let path := cache_dir +:+ "/" +:+ filename in
    let fetch := wget_q_O path url in
    let tr1 := tr ++ [Print ("Downloading " +:+ url)] in
    let rc1 := shell E tr1 (render fetch) in
    let tr2 := tr1 ++ [SubprocessRun fetch rc1] in
    if rc1 =? 0 then
      let link := ln_s path (save_dir +:+ "/" +:+ filename) in
      let rc2 := shell E tr2 (render link) in
      (if rc2 =? 0 then Ok tt
       else Raise (CalledProcessError rc2 (render link)),
       tr2 ++ [SubprocessRun link rc2])
    else (Raise (CalledProcessError rc1 (render fetch)), tr2).
Proof.
  unfold comfy_utils.download_wget_file, bind, print, emit.
  cbv zeta.
  rewrite subprocess_run_checked. cbv zeta.
  destruct (shell E _ (render (wget_q_O _ url)) =? 0); [| reflexivity].
  rewrite subprocess_run_checked. reflexivity.
Qed.

End Helpers.

(** ** C6: where [download_hf_file] puts the link *)

(** C6: when the hub fetch of [download_hf_file] returns [path] (the file
    was fetched into [cache_dir]), the only other command is
    [ln -s path save_dir/name], where [name] is [save_filename] when it is
    given and [filename] when it is omitted; the call returns when the link
    command exits with 0 and raises [CalledProcessError] otherwise. *)
Theorem C6_download_hf_file_links_fetched_path (E : Env)
    (repo filename cache_dir save_dir : string)
    (save_filename token : option string) (tr : list event) (path : string) :
  hf_hub_download E (tr ++ [Print ("Downloading " +:+ repo +:+ "/" +:+ filename)])
    repo filename cache_dir token = Some path ->
  let name := match save_filename with Some s => s | None => filename end in
  let link := ln_s path (save_dir +:+ "/" +:+ name) in
  let fetched :=
    tr ++ [Print ("Downloading " +:+ repo +:+ "/" +:+ filename);
           HfHubDownload repo filename cache_dir token (Some path)] in
  let rc := shell E fetched (render link) in
  let out := comfy_utils.download_hf_file E repo filename cache_dir save_dir
               save_filename token tr in
  snd out = fetched ++ [SubprocessRun link rc]
  /\ render link = "ln -s " +:+ path +:+ " " +:+ save_dir +:+ "/" +:+ name
  /\ (rc = 0 -> fst out = Ok tt)
  /\ (rc <> 0 -> fst out = Raise (CalledProcessError rc (render link))).
Proof.
  intros Hfetch name link fetched rc out.
  subst out. rewrite download_hf_file_eq. cbv zeta.
  unfold hf_file_message. rewrite Hfetch.
  replace (default filename save_filename) with name
    by (destruct save_filename; reflexivity).
  replace ((tr ++ [Print ("Downloading " +:+ repo +:+ "/" +:+ filename)])
           ++ [HfHubDownload repo filename cache_dir token (Some path)])
    with fetched by (unfold fetched; rewrite <- app_assoc; reflexivity).
  fold link. fold rc. simpl.
  split; [reflexivity |]. split; [reflexivity |]. split.
  - intros H0. rewrite H0. reflexivity.
  - intros Hne. apply Z.eqb_neq in Hne. rewrite Hne. reflexivity.
Qed.

Lemma C6_download_hf_file_links_fetched_path_witness :
  let models := "/root/comfy/ComfyUI/models" in
  comfy_utils.download_hf_file (friendly_env None None)
    "Comfy-Org/Lumina_Image_2.0_Repackaged" "split_files/vae/ae.safetensors"
    "/cache" (models +:+ "/vae") (Some "ae.safetensors") None []
  = (Ok tt,
     [Print "Downloading Comfy-Org/Lumina_Image_2.0_Repackaged/split_files/vae/ae.safetensors";
      HfHubDownload "Comfy-Org/Lumina_Image_2.0_Repackaged"
        "split_files/vae/ae.safetensors" "/cache" None
        (Some "/cache/Comfy-Org/Lumina_Image_2.0_Repackaged/split_files/vae/ae.safetensors");
      SubprocessRun
        (ln_s "/cache/Comfy-Org/Lumina_Image_2.0_Repackaged/split_files/vae/ae.safetensors"
              "/root/comfy/ComfyUI/models/vae/ae.safetensors") 0])
  /\ snd (comfy_utils.download_hf_file (friendly_env None None)
            "comfyanonymous/flux_text_encoders" "clip_l.safetensors"
            "/cache" (models +:+ "/text_encoders") None None [])
     = [Print "Downloading comfyanonymous/flux_text_encoders/clip_l.safetensors";
        HfHubDownload "comfyanonymous/flux_text_encoders"
          "clip_l.safetensors" "/cache" None
          (Some "/cache/comfyanonymous/flux_text_encoders/clip_l.safetensors");
        SubprocessRun
          (ln_s "/cache/comfyanonymous/flux_text_encoders/clip_l.safetensors"
                "/root/comfy/ComfyUI/models/text_encoders/clip_l.safetensors") 0].
Proof.
  intros models. split.
  - destruct (C6_download_hf_file_links_fetched_path (friendly_env None None)
                "Comfy-Org/Lumina_Image_2.0_Repackaged"
                "split_files/vae/ae.safetensors" "/cache" (models +:+ "/vae")
                (Some "ae.safetensors") None []
                "/cache/Comfy-Org/Lumina_Image_2.0_Repackaged/split_files/vae/ae.safetensors"
                eq_refl) as (Htr & _ & Hok & _).
    apply injective_projections; [apply Hok; reflexivity | exact Htr].
  - exact (proj1 (C6_download_hf_file_links_fetched_path
                    (friendly_env None None)
                    "comfyanonymous/flux_text_encoders" "clip_l.safetensors"
                    "/cache" (models +:+ "/text_encoders") None None []
                    "/cache/comfyanonymous/flux_text_encoders/clip_l.safetensors"
                    eq_refl)).
Defined.

(** ** C7: failures of download steps *)

Lemma clean_no_failure evs evs1 ev evs2 e :
  clean evs -> evs = evs1 ++ ev :: evs2 -> exn_of ev = Some e -> False.
Proof.
  intros Hc -> He. unfold clean in Hc.
  rewrite Forall_app, Forall_cons_iff in Hc.
  destruct Hc as (_ & Hev & _). congruence.
Qed.

Lemma fails_last_c_sound {A} (r : result A) evs :
  fails_last_c r evs -> fails_last r evs.
Proof.
  intros H evs1 ev evs2 e Heq He.
  destruct r as [a | e0]; simpl in H.
  - exfalso. eapply clean_no_failure; eauto.
  - destruct H as [H | (evs0 & ev0 & Hevs & Hc & He0)].
    + exfalso. eapply clean_no_failure; eauto.
    + subst evs.
      destruct evs2 as [| x xs _] using rev_ind.
      * apply app_inj_tail in Heq as [-> ->].
        split; [reflexivity | congruence].
      * exfalso.
        change (evs0 ++ [ev0] = evs1 ++ (ev :: xs) ++ [x]) in Heq.
        rewrite app_assoc in Heq.
        apply app_inj_tail in Heq as [-> _].
        eapply clean_no_failure; [exact Hc | reflexivity | exact He].
Qed.

Lemma aborting_ret {A} (a : A) : aborting (ret a).
Proof. apply appends_ret. constructor. Qed.

Lemma aborting_raise {A} (e : exn) : aborting (@raise A e).
Proof. apply appends_raise. left. constructor. Qed.

Lemma aborting_bind {A B} (m : M A) (k : A -> M B) :
  aborting m -> (forall a, aborting (k a)) -> aborting (bind m k).
Proof.
  intros Hm Hk.
  apply appends_bind with (Q1 := fails_last_c) (Q2 := fun _ => fails_last_c);
    auto.
  intros a e1 r e2 H1 H2. simpl in H1.
  destruct r as [b | e]; simpl in *.
  - apply Forall_app; auto.
  - destruct H2 as [H2 | (evs0 & ev & -> & Hc & He)].
    + left. apply Forall_app; auto.
    + right. exists (e1 ++ evs0), ev. rewrite app_assoc.
      split; [reflexivity |]. split; [apply Forall_app; auto | exact He].
Qed.

Lemma aborting_step {A} (m : M A) :
  (forall tr, exists ev, snd (m tr) = tr ++ [ev] /\
     match fst (m tr) with
     | Ok _ => exn_of ev = None
     | Raise e => exn_of ev = Some e
     end) ->
  aborting m.
Proof.
  intros H tr. destruct (H tr) as (ev & Htr & Hev).
  exists [ev]. split; [exact Htr |].
  destruct (fst (m tr)) as [a | e]; simpl.
  - constructor; [exact Hev | constructor].
  - right. exists [], ev. split; [reflexivity |]. split; [constructor | exact Hev].
Qed.

Lemma aborting_print (line : string) : aborting (print line).
Proof.
  apply aborting_step. intros tr. exists (Print line).
  split; reflexivity.
Qed.

Lemma aborting_getitem {V} (d : gmap string V) (key : string) :
  aborting (getitem d key).
Proof.
  unfold getitem. destruct (d !! key);
    [apply aborting_ret | apply aborting_raise].
Qed.

Lemma aborting_for {A} (xs : list A) (body : A -> M unit) :
  (forall x, aborting (body x)) -> aborting (for_ xs body).
Proof.
  intros H. induction xs as [| x xs IH]; simpl.
  - apply aborting_ret.
  - apply aborting_bind; auto.
Qed.

Section Aborting.
Variable E : Env.

Lemma aborting_subprocess_run (cmd : shell_cmd) :
  aborting (comfy_utils.subprocess_run E cmd true).
Proof.
  apply aborting_step. intros tr. rewrite subprocess_run_checked. cbv zeta.
  exists (SubprocessRun cmd (shell E tr (render cmd))).
  split; [reflexivity |]. simpl.
  destruct (shell E tr (render cmd) =? 0); reflexivity.
Qed.

Lemma aborting_hf_hub_download repo filename cache_dir token :
  aborting (comfy_utils.hf_hub_download_ E repo filename cache_dir token).
Proof.
  apply aborting_step. intros tr. unfold comfy_utils.hf_hub_download_.
  eexists. split; [reflexivity |]. simpl.
  destruct (hf_hub_download E tr repo filename cache_dir token); reflexivity.
Qed.

Lemma aborting_snapshot_download repo allow ignore cache_dir :
  aborting (comfy_utils.snapshot_download_ E repo allow ignore cache_dir).
Proof.
  apply aborting_step. intros tr. unfold comfy_utils.snapshot_download_.
  eexists. split; [reflexivity |]. simpl.
  destruct (snapshot_download E tr repo allow ignore cache_dir); reflexivity.
Qed.

Lemma aborting_download_hf_file repo filename cache_dir save_dir sf token :
  aborting (comfy_utils.download_hf_file E repo filename cache_dir save_dir
              sf token).
Proof.
  unfold comfy_utils.download_hf_file.
  apply aborting_bind; [apply aborting_print | intros _].
  apply aborting_bind; [apply aborting_hf_hub_download | intros path].
  apply aborting_subprocess_run.
Qed.

Lemma aborting_download_hf_snapshot repo dir_name cache_dir save_dir allow
    ignore :
  aborting (comfy_utils.download_hf_snapshot E repo dir_name cache_dir
              save_dir allow ignore).
Proof.
  unfold comfy_utils.download_hf_snapshot.
  apply aborting_bind; [apply aborting_print | intros _].
  apply aborting_bind; [apply aborting_snapshot_download | intros path].
  apply aborting_subprocess_run.
Qed.

Lemma aborting_download_wget_file url filename cache_dir save_dir :
  aborting (comfy_utils.download_wget_file E url filename cache_dir save_dir).
Proof.
  unfold comfy_utils.download_wget_file.
  apply aborting_bind; [apply aborting_print | intros _].
  cbv zeta.
  apply aborting_bind; [apply aborting_subprocess_run | intros _].
  apply aborting_subprocess_run.
Qed.

End Aborting.

Create HintDb methods.
#[local] Hint Unfold
  ComfyAppBuilder._hf_download
  FluxComfyAppBuilder._hf_download
  WanComfyAppBuilder._hf_download
  QwenComfyAppBuilder._hf_download
  ACEStepComfyAppBuilder._hf_download
  ACEStepComfyAppBuilder._ace_step_download
  ACEStepComfyAppBuilder._qwen_download
  KritaComfyAppBuilder._hf_download
  KritaComfyAppBuilder._illustrious_download
  KritaComfyAppBuilder._clip_vision_download
  KritaComfyAppBuilder._upscale_download
  KritaComfyAppBuilder._inpaint_download
  KritaComfyAppBuilder._controlnet_download
  KritaComfyAppBuilder._ipadapter_download : methods.

(** Resolve [vt_hf_download (mro c)] to the method body of the class. *)
Ltac resolve_hf_download :=
  unfold mro, override, base_vtable;
  cbn [vt_hf_download default from_option];
  autounfold with methods;
  cbn [vt_hf_download];
  autounfold with methods;
  cbv zeta.

Ltac aborting_steps :=
  repeat first
    [ apply aborting_ret
    | apply aborting_getitem
    | apply aborting_subprocess_run
    | apply aborting_download_hf_file
    | apply aborting_download_hf_snapshot
    | apply aborting_download_wget_file
    | apply aborting_for; intros ?
    | apply aborting_bind; [| intros ?] ].

Lemma aborting_hf_download (E : Env) (c : class) (self : attrs)
    (tokens : gmap string string) :
  aborting (vt_hf_download (mro c) E self tokens).
Proof.
  destruct c; resolve_hf_download; aborting_steps.
Qed.

Ltac settle_once_and_fatal Habort eqn :=
  let evs := fresh "evs" in
  let Htr := fresh "Htr" in
  let Hfl := fresh "Hfl" in
  intros tr; destruct (Habort tr) as (evs & Htr & Hfl);
  exists evs; split; [exact Htr |];
  apply fails_last_c_sound in Hfl;
  rewrite eqn in Htr, Hfl |- *; cbv zeta in Htr, Hfl |- *;
  repeat match goal with
         | H : context [match ?x with Some _ => _ | None => _ end] |- _ =>
             destruct x
         | H : context [if ?b then _ else _] |- _ => destruct b
         end;
  simpl in Htr; rewrite <- ?app_assoc in Htr;
  apply app_inv_head in Htr; subst evs;
  unfold fetch_attempts, link_attempts, hf_file_message in *;
  (split; [reflexivity |]); (split; [simpl; lia |]);
  (split; [simpl; first [reflexivity | discriminate] | exact Hfl]).

(** Each of the three helpers makes one fetch attempt and at most one link
    attempt; a hub call that raises, or a command line whose status is not
    0, is the last step of the run and the run raises that step's
    exception.  The same holds for the whole [_hf_download] of every
    builder class: nothing catches the exception and nothing runs after the
    failed step.  The status is the one [subprocess.run] sees, that of the
    line. *)
Lemma failed_step_aborts_the_build (E : Env) :
  (forall repo filename cache_dir save_dir save_filename token,
     once_and_fatal (comfy_utils.download_hf_file E repo filename cache_dir
                       save_dir save_filename token))
  /\ (forall repo dir_name cache_dir save_dir allow_patterns ignore_patterns,
        once_and_fatal (comfy_utils.download_hf_snapshot E repo dir_name
                          cache_dir save_dir allow_patterns ignore_patterns))
  /\ (forall url filename cache_dir save_dir,
        once_and_fatal (comfy_utils.download_wget_file E url filename
                          cache_dir save_dir))
  /\ (forall c self tokens,
        appends (vt_hf_download (mro c) E self tokens) fails_last).
Proof.
  split; [| split; [| split]].
  - intros repo filename cache_dir save_dir sf token.
    settle_once_and_fatal
      (aborting_download_hf_file E repo filename cache_dir save_dir sf token)
      download_hf_file_eq.
  - intros repo dir_name cache_dir save_dir allow ignore.
    settle_once_and_fatal
      (aborting_download_hf_snapshot E repo dir_name cache_dir save_dir
         allow ignore)
      download_hf_snapshot_eq.
  - intros url filename cache_dir save_dir.
    settle_once_and_fatal
      (aborting_download_wget_file E url filename cache_dir save_dir)
      download_wget_file_eq.
  - intros c self tokens.
    eapply appends_weaken; [apply aborting_hf_download |].
    intros r evs. apply fails_last_c_sound.
Qed.

(** ** Command lines as [sh] reads them *)

Lemma split_on_nonempty (sep : ascii -> bool) (s : string) :
  sh.split_on sep s <> [].
Proof.
  destruct s as [| c rest]; simpl; [discriminate |].
  destruct (sep c); [discriminate |].
  destruct (sh.split_on sep rest); discriminate.
Qed.

(** The first command of a line is the first of its pieces. *)
Lemma first_piece_hd (line : string) :
  sh.first_piece line = hd EmptyString (sh.pieces line).
Proof.
  unfold sh.pieces.
  induction line as [| c rest IH]; simpl; [reflexivity |].
  destruct (sh.is_amp c); [reflexivity |].
  rewrite IH. destruct (sh.split_on sh.is_amp rest) eqn:Hs; [| reflexivity].
  exfalso. exact (split_on_nonempty _ _ Hs).
Qed.

(** A text without separator is one field. *)
Lemma split_on_none (sep : ascii -> bool) (s : string) :
  forallb (fun c => negb (sep c)) (list_ascii_of_string s) = true ->
  sh.split_on sep s = [s].
Proof.
  induction s as [| c rest IH]; simpl; [reflexivity |].
  intros H. apply andb_prop in H as [Hc Hrest].
  destruct (sep c); [discriminate |].
  rewrite (IH Hrest). reflexivity.
Qed.

(** A line without ["&"] is one command. *)
Lemma pieces_without_amp (line : string) :
  forallb (fun c => negb (sh.is_amp c)) (list_ascii_of_string line) = true ->
  sh.pieces line = [line].
Proof. apply split_on_none. Qed.

(** For the commands of the sources written without ["&"], the status of
    the line is the status of the command. *)
Lemma status_without_amp (run : string -> Z) (cmd : shell_cmd) :
  forallb (fun c => negb (sh.is_amp c)) (list_ascii_of_string (render cmd))
  = true ->
  sh.status run (render cmd) = run (render cmd).
Proof.
  intros H. unfold sh.status, sh.last_piece.
  rewrite (pieces_without_amp _ H). cbn [List.last].
  destruct cmd; reflexivity.
Qed.

Lemma through_sh_without_amp (E : Env) (tr : list event) (cmd : shell_cmd) :
  forallb (fun c => negb (sh.is_amp c)) (list_ascii_of_string (render cmd))
  = true ->
  shell (through_sh E) tr (render cmd) = shell E tr (render cmd).
Proof. intros H. apply (status_without_amp (shell E tr) cmd H). Qed.

(** What follows the last ["&"] of a line. *)
Lemma pieces_before_last (a t : string) :
  forallb (fun c => negb (sh.is_amp c)) (list_ascii_of_string t) = true ->
  exists p ps, sh.pieces (a +:+ "&" +:+ t) = (p :: ps) ++ [t].
Proof.
  intros Ht. unfold sh.pieces.
  induction a as [| c a (p & ps & IH)].
  - exists EmptyString, [].
    change (sh.split_on sh.is_amp ("" +:+ "&" +:+ t))
      with (EmptyString :: sh.split_on sh.is_amp t).
    rewrite (split_on_none _ _ Ht). reflexivity.
  - change (String c a +:+ "&" +:+ t) with (String c (a +:+ "&" +:+ t)).
    cbn [sh.split_on]. rewrite IH.
    destruct (sh.is_amp c).
    + exists EmptyString, (p :: ps). reflexivity.
    + exists (String c p), ps. reflexivity.
Qed.

Lemma last_piece_after_amp (a t : string) :
  forallb (fun c => negb (sh.is_amp c)) (list_ascii_of_string t) = true ->
  sh.last_piece (a +:+ "&" +:+ t) = t.
Proof.
  intros Ht. unfold sh.last_piece.
  destruct (pieces_before_last a t Ht) as (p & ps & ->).
  apply List.last_last.
Qed.

Lemma string_append_assoc (a b c : string) :
  (a +:+ b) +:+ c = a +:+ b +:+ c.
Proof.
  induction a as [| x a IH]; [reflexivity |].
  change (String x ((a +:+ b) +:+ c) = String x (a +:+ b +:+ c)).
  now rewrite IH.
Qed.

(** A Civitai line exits with status 0 whatever the commands do: for every
    output path, every query and every token without ["&"] and blank. *)
Lemma civitai_line_exits_0 (run : string -> Z) (output query t : string) :
  forallb (fun c => negb (sh.is_amp c)) (list_ascii_of_string t) = true ->
  forallb (fun c => negb (sh.is_blank c)) (list_ascii_of_string t) = true ->
  sh.status run (render (wget_q_O output (query +:+ "&token=" +:+ t))) = 0.
Proof.
  intros Hamp Hblank. unfold sh.status.
  replace (render (wget_q_O output (query +:+ "&token=" +:+ t)))
    with (("wget -q -O " +:+ output +:+ " " +:+ query)
          +:+ "&" +:+ ("token=" +:+ t)).
  - rewrite last_piece_after_amp by exact Hamp.
    unfold sh.words. rewrite split_on_none by exact Hblank. reflexivity.
  - unfold render. rewrite !string_append_assoc. reflexivity.
Qed.

(** C7: a [wget] that fails is not noticed at the two Civitai downloads.
    The URL is put into the command line unquoted, so [sh] ends the command
    at each ["&"]: [wget] is started in the background with the URL cut
    after [?type=Model], the query parameters that follow become variable
    assignments, and the line exits with status 0 whatever the commands do.
    With a [wget] that exits with status 8, the download stage of the Wan
    builder therefore returns, having linked a file that was not fetched,
    and so does [_inpaint_download] of the Krita builder.  Where the URL
    holds no ["&"], the open model database file of the Krita builder, the
    same failure raises [CalledProcessError] with return code 8. *)
Theorem C7_failed_civitai_fetch_goes_unnoticed :
  let gguf := "/cache/liveWallpaperFast_i2v14B720P.gguf" in
  let url :=
    "https://civitai.com/api/download/models/1873761?type=Model&format=GGUF&size=full&fp=fp32&token=c1v1t41" in
  let fetch := wget_q_O gguf url in
  let E := wget_fails_env None in
  sh.pieces (render fetch)
  = [ "wget -q -O /cache/liveWallpaperFast_i2v14B720P.gguf https://civitai.com/api/download/models/1873761?type=Model";
      "format=GGUF"; "size=full"; "fp=fp32"; "token=c1v1t41" ]
  /\ failing_wget [] (sh.first_piece (render fetch)) = 8
  /\ (forall (W : Env) (tr : list event),
        shell (through_sh W) tr (render fetch) = 0)
  /\ (exists evs,
        vt_hf_download (mro C_WanComfyAppBuilder) E
          (self_attrs (instantiate C_WanComfyAppBuilder)) civitai_tokens []
        = (Ok tt, evs)
        /\ In (SubprocessRun fetch 0) evs
        /\ In (gguf,
               "/root/comfy/ComfyUI/models/diffusion_models/liveWallpaperFast_i2v14B720P.gguf")
             (links evs))
  /\ KritaComfyAppBuilder._inpaint_download E
       (self_attrs (instantiate C_KritaComfyAppBuilder)) civitai_tokens []
     = (Ok tt,
        [ SubprocessRun (mkdir_p "/root/comfy/ComfyUI/models/inpaint") 0;
          Print "Downloading https://civitai.com/api/download/models/480117?type=Model&format=SafeTensor&size=pruned&fp=fp16&token=c1v1t41";
          SubprocessRun
            (wget_q_O "/cache/animaginexl_v31Inpainting.safetensors"
               "https://civitai.com/api/download/models/480117?type=Model&format=SafeTensor&size=pruned&fp=fp16&token=c1v1t41")
            0;
          SubprocessRun
            (ln_s "/cache/animaginexl_v31Inpainting.safetensors"
               "/root/comfy/ComfyUI/models/inpaint/animaginexl_v31Inpainting.safetensors")
            0 ])
  /\ fst (vt_hf_download (mro C_KritaComfyAppBuilder) E
            (self_attrs (instantiate C_KritaComfyAppBuilder))
            civitai_tokens [])
     = Raise (CalledProcessError 8
         "wget -q -O /cache/4x-NMKD-YandereNeo.pth https://objectstorage.us-phoenix-1.oraclecloud.com/n/ax6ygfvpvzka/b/open-modeldb-files/o/4x-NMKD-YandereNeo.pth").
Proof.
  cbv zeta. split; [vm_compute; reflexivity |].
  split; [vm_compute; reflexivity |].
  split; [intros W tr; reflexivity |].
  split.
  - eexists. split; [vm_compute; reflexivity |].
    split; vm_compute; repeat (first [left; reflexivity | right]).
  - split; vm_compute; reflexivity.
Qed.

(** ** C5: one link per cached artefact *)

Lemma links_all_ret {A} (a : A) : links_all (ret a) [] [].
Proof. apply appends_ret. simpl. auto. Qed.

Lemma links_all_bind {A B} (m : M A) (k : A -> M B) S1 L1 S2 L2 :
  links_all m S1 L1 -> (forall a, links_all (k a) S2 L2) ->
  links_all (bind m k) (S1 ++ S2) (L1 ++ L2).
Proof.
  intros Hm Hk.
  apply appends_bind with (Q1 := linked S1 L1) (Q2 := fun _ => linked S2 L2).
  - exact Hm.
  - exact Hk.
  - intros a e1 r e2 H1 H2. destruct r as [b | e]; simpl in *; [| exact I].
    destruct H1 as (HS1 & HL1 & HF1), H2 as (HS2 & HL2 & HF2).
    unfold cache_entries, links, fetched in *.
    rewrite !flat_map_app, !map_app. repeat split; congruence.
  - intros e e1 _. exact I.
Qed.

Lemma links_all_getitem {V} (d : gmap string V) (key : string) :
  links_all (getitem d key) [] [].
Proof.
  unfold getitem. destruct (d !! key);
    [apply links_all_ret | apply appends_raise; exact I].
Qed.

Lemma links_all_for {A} (xs : list A) (body : A -> M unit)
    (Sf : A -> list cache_entry) (Lf : A -> list string) :
  (forall x, links_all (body x) (Sf x) (Lf x)) ->
  links_all (for_ xs body) (flat_map Sf xs) (flat_map Lf xs).
Proof.
  intros H. induction xs as [| x xs IH]; simpl.
  - apply links_all_ret.
  - apply links_all_bind; auto.
Qed.

Ltac case_oracle_answers :=
  repeat match goal with
         | |- context [match ?x with Some _ => _ | None => _ end] =>
             destruct x
         | |- context [shell ?E ?t ?c] => generalize (shell E t c); intro
         | |- context [if ?b then _ else _] => destruct b eqn:?
         end.

Ltac settle_links eqn :=
  let tr := fresh "tr" in
  intros tr; rewrite eqn; cbv zeta;
  case_oracle_answers;
  eexists; (split; [simpl; rewrite <- ?app_assoc; reflexivity |]);
  simpl; try exact I;
  unfold cache_entries, links, fetched; simpl;
  repeat match goal with
         | H : (?rc =? 0) = true |- context [?rc =? 0] => rewrite H
         end;
  simpl; auto.

Section Links.
Variable E : Env.

Lemma links_all_mkdir (dir : string) :
  links_all (comfy_utils.subprocess_run E (mkdir_p dir) true) [] [].
Proof. settle_links subprocess_run_checked. Qed.

Lemma links_all_download_hf_file repo filename cache_dir save_dir sf token :
  links_all
    (comfy_utils.download_hf_file E repo filename cache_dir save_dir sf token)
    [HubFile repo filename]
    [save_dir +:+ "/" +:+ default filename sf].
Proof. settle_links download_hf_file_eq. Qed.

Lemma links_all_download_hf_snapshot repo dir_name cache_dir save_dir allow
    ignore :
  links_all
    (comfy_utils.download_hf_snapshot E repo dir_name cache_dir save_dir
       allow ignore)
    [HubSnapshot repo]
    [save_dir +:+ "/" +:+ dir_name].
Proof. settle_links download_hf_snapshot_eq. Qed.

Lemma links_all_download_wget_file url filename cache_dir save_dir :
  links_all
    (comfy_utils.download_wget_file E url filename cache_dir save_dir)
    [WgetFile (cache_dir +:+ "/" +:+ filename)]
    [save_dir +:+ "/" +:+ filename].
Proof. settle_links download_wget_file_eq. Qed.

End Links.

Ltac links_steps :=
  repeat first
    [ apply links_all_ret
    | apply links_all_getitem
    | apply links_all_mkdir
    | apply links_all_download_hf_file
    | apply links_all_download_hf_snapshot
    | apply links_all_download_wget_file
    | eapply links_all_for; intros ?
    | eapply links_all_bind; [| intros ?] ].

Lemma hf_download_links_all (E : Env) (c : class)
    (tokens : gmap string string) :
  let self := self_attrs (instantiate c) in
  exists S L,
    links_all (vt_hf_download (mro c) E self tokens) S L
    /\ length L = length S
    /\ NoDup S /\ NoDup L /\ Forall (in_models_tree self) L.
Proof.
  destruct c; cbv zeta; do 2 eexists;
    (split; [resolve_hf_download; links_steps |]);
    (split; [vm_compute; reflexivity |]);
    (split; [apply (bool_decide_unpack _); vm_compute; exact I |]);
    (split; [apply (bool_decide_unpack _); vm_compute; exact I |]);
    unfold in_models_tree; repeat (constructor; [reflexivity |]); constructor.
Qed.

Ltac settle_one_link eqn :=
  let tr := fresh "tr" in
  let tr' := fresh "tr'" in
  let H := fresh "H" in
  intros tr tr'; rewrite eqn; cbv zeta;
  case_oracle_answers; intros H; inversion H; subst;
  eexists; eexists;
  (split; [rewrite <- ?app_assoc; reflexivity |]);
  unfold links, fetched; simpl;
  repeat match goal with
         | H : (?rc =? 0) = true |- context [?rc =? 0] => rewrite H
         end;
  split; reflexivity.

Lemma one_link_download_hf_file E repo filename cache_dir save_dir sf token :
  one_link
    (comfy_utils.download_hf_file E repo filename cache_dir save_dir sf token)
    (save_dir +:+ "/" +:+ default filename sf).
Proof. settle_one_link download_hf_file_eq. Qed.

Lemma one_link_download_hf_snapshot E repo dir_name cache_dir save_dir allow
    ignore :
  one_link
    (comfy_utils.download_hf_snapshot E repo dir_name cache_dir save_dir
       allow ignore)
    (save_dir +:+ "/" +:+ dir_name).
Proof. settle_one_link download_hf_snapshot_eq. Qed.

Lemma one_link_download_wget_file E url filename cache_dir save_dir :
  one_link
    (comfy_utils.download_wget_file E url filename cache_dir save_dir)
    (save_dir +:+ "/" +:+ filename).
Proof. settle_one_link download_wget_file_eq. Qed.

(** C5: every helper call that returns has fetched one artefact into the
    cache and created exactly one link to the path the fetch returned.  In a
    successful model-download stage of any builder class the i-th link
    points to the i-th fetched path, there are as many links as fetches, no
    cache entry is fetched twice, no link name is used twice, and every link
    lies in the model directory tree; so, when the fetched paths are
    pairwise distinct, each of them has exactly one link.  (For the snapshot
    helper the artefact is the snapshot directory.) *)
Theorem C5_one_link_per_cached_artefact (E : Env) :
  (forall repo filename cache_dir save_dir save_filename token,
     one_link (comfy_utils.download_hf_file E repo filename cache_dir save_dir
                 save_filename token)
       (save_dir +:+ "/" +:+ default filename save_filename))
  /\ (forall repo dir_name cache_dir save_dir allow_patterns ignore_patterns,
        one_link (comfy_utils.download_hf_snapshot E repo dir_name cache_dir
                    save_dir allow_patterns ignore_patterns)
          (save_dir +:+ "/" +:+ dir_name))
  /\ (forall url filename cache_dir save_dir,
        one_link (comfy_utils.download_wget_file E url filename cache_dir
                    save_dir)
          (save_dir +:+ "/" +:+ filename))
  /\ (forall c tokens tr tr',
        let self := self_attrs (instantiate c) in
        vt_hf_download (mro c) E self tokens tr = (Ok tt, tr') ->
        exists evs,
          tr' = tr ++ evs
          /\ map fst (links evs) = fetched evs
          /\ length (links evs) = length (cache_entries evs)
          /\ NoDup (cache_entries evs)
          /\ NoDup (map snd (links evs))
          /\ Forall (in_models_tree self) (map snd (links evs))
          /\ (NoDup (fetched evs) ->
              forall p, In p (fetched evs) -> links_to p evs = 1%nat)).
Proof.
  split; [intros; apply one_link_download_hf_file |].
  split; [intros; apply one_link_download_hf_snapshot |].
  split; [intros; apply one_link_download_wget_file |].
  intros c tokens tr tr' self Hrun.
  destruct (hf_download_links_all E c tokens)
    as (S & L & Hall & Hlen & HS & HL & Htree).
  fold self in Hall, Htree.
  destruct (Hall tr) as (evs & Htr & Hlinked).
  rewrite Hrun in Htr, Hlinked. simpl in Htr, Hlinked.
  destruct Hlinked as (HeS & HeL & Hfst).
  exists evs. subst S L.
  split; [exact Htr |]. split; [exact Hfst |].
  split; [rewrite <- Hlen, length_map; reflexivity |].
  split; [exact HS |]. split; [exact HL |]. split; [exact Htree |].
  intros Hnd p Hin. unfold links_to. rewrite Hfst.
  apply NoDup_ListNoDup in Hnd.
  apply (proj1 (NoDup_count_occ' string_dec (fetched evs)) Hnd p Hin).
Qed.

Lemma C5_one_link_per_cached_artefact_witness :
  let self := self_attrs (instantiate C_KritaComfyAppBuilder) in
  let run := vt_hf_download (mro C_KritaComfyAppBuilder)
               (friendly_env None None) self civitai_tokens [] in
  fst run = Ok tt
  /\ length (links (snd run)) = 19%nat
  /\ NoDup (map snd (links (snd run)))
  /\ links_to "/cache/animaginexl_v31Inpainting.safetensors" (snd run) = 1%nat.
Proof.
  intros self run.
  destruct (proj2 (proj2 (proj2
              (C5_one_link_per_cached_artefact (friendly_env None None))))
              C_KritaComfyAppBuilder civitai_tokens [] (snd run))
    as (evs & Htr & _ & _ & _ & Hnames & _ & Hone).
  { vm_compute. reflexivity. }
  simpl in Htr. rewrite Htr.
  split; [vm_compute; reflexivity |].
  split; [rewrite <- Htr; vm_compute; reflexivity |].
  split; [exact Hnames |].
  apply Hone.
  - rewrite <- Htr. apply (bool_decide_unpack _). vm_compute. exact I.
  - rewrite <- Htr. vm_compute. auto 30.
Defined.

(** ** C9: the links of the video workload *)

Lemma ret_ok_inv {A} (a b : A) tr tr' :
  ret a tr = (Ok b, tr') -> b = a /\ tr' = tr.
Proof. unfold ret. intros H. inversion H. auto. Qed.

Lemma getitem_ok_inv {V} (d : gmap string V) key (v : V) tr tr' :
  getitem d key tr = (Ok v, tr') -> d !! key = Some v /\ tr' = tr.
Proof.
  unfold getitem. destruct (d !! key); intros H; inversion H. auto.
Qed.

Lemma download_hf_file_ok_inv E repo filename cache_dir save_dir sf token
    tr tr' :
  comfy_utils.download_hf_file E repo filename cache_dir save_dir sf token tr
    = (Ok tt, tr') ->
  exists path,
    tr' = tr ++ [hf_file_message repo filename;
                 HfHubDownload repo filename cache_dir token (Some path);
                 SubprocessRun
                   (ln_s path (save_dir +:+ "/" +:+ default filename sf)) 0].
Proof.
  rewrite download_hf_file_eq. cbv zeta.
  case_oracle_answers; intros H; inversion H; subst.
  apply Z.eqb_eq in Heqb. subst.
  eexists. rewrite <- !app_assoc. reflexivity.
Qed.

Lemma download_wget_file_ok_inv E url filename cache_dir save_dir tr tr' :
  comfy_utils.download_wget_file E url filename cache_dir save_dir tr
    = (Ok tt, tr') ->
  let path := cache_dir +:+ "/" +:+ filename in
  tr' = tr ++ [Print ("Downloading " +:+ url);
               SubprocessRun (wget_q_O path url) 0;
               SubprocessRun (ln_s path (save_dir +:+ "/" +:+ filename)) 0].
Proof.
  rewrite download_wget_file_eq. cbv zeta.
  case_oracle_answers; intros H; inversion H; subst.
  apply Z.eqb_eq in Heqb, Heqb0. subst.
  rewrite <- !app_assoc. reflexivity.
Qed.

(** C9: when the model-download stage of the video workload returns, it
    has created exactly one link under [models/diffusion_models], to the
    file [wget] fetched into the cache, and exactly one link under
    [models/text_encoders], to the path of the text encoder fetched from the
    hub; its other two links are under [models/vae] and
    [models/clip_vision]. *)
Theorem C9_wan_links (E : Env) (tokens : gmap string string)
    (tr tr' : list event) :
  let self := self_attrs (instantiate C_WanComfyAppBuilder) in
  let models := _comfy_models_dir self in
  vt_hf_download (mro C_WanComfyAppBuilder) E self tokens tr = (Ok tt, tr') ->
  exists evs p_text p_vae p_clip url,
    tr' = tr ++ evs
    /\ cache_entries evs =
         [ HubFile wan_repo ("split_files/text_encoders/" +:+ wan_umt5);
           HubFile wan_repo "split_files/vae/wan_2.1_vae.safetensors";
           HubFile wan_repo "split_files/clip_vision/clip_vision_h.safetensors";
           WgetFile ("/cache/" +:+ wan_gguf) ]
    /\ fetched evs = [p_text; p_vae; p_clip; "/cache/" +:+ wan_gguf]
    /\ In (SubprocessRun (wget_q_O ("/cache/" +:+ wan_gguf) url) 0) evs
    /\ links_under (models +:+ "/diffusion_models") evs =
         [("/cache/" +:+ wan_gguf,
           models +:+ "/diffusion_models/" +:+ wan_gguf)]
    /\ links_under (models +:+ "/text_encoders") evs =
         [(p_text, models +:+ "/text_encoders/" +:+ wan_umt5)]
    /\ links evs =
         [ (p_text, models +:+ "/text_encoders/" +:+ wan_umt5);
           (p_vae, models +:+ "/vae/wan_2.1_vae.safetensors");
           (p_clip, models +:+ "/clip_vision/clip_vision_h.safetensors");
           ("/cache/" +:+ wan_gguf,
            models +:+ "/diffusion_models/" +:+ wan_gguf) ].
Proof.
  intros self models H. subst self models.
  revert H. resolve_hf_download. intros H.
  apply bind_ok_inv in H as (u0 & t0 & H0 & H).
  apply ret_ok_inv in H0 as [_ ->].
  apply bind_ok_inv in H as ([] & t1 & H1 & H).
  apply download_hf_file_ok_inv in H1 as (p1 & ->).
  apply bind_ok_inv in H as ([] & t2 & H2 & H).
  apply download_hf_file_ok_inv in H2 as (p2 & ->).
  apply bind_ok_inv in H as ([] & t3 & H3 & H).
  apply download_hf_file_ok_inv in H3 as (p3 & ->).
  apply bind_ok_inv in H as (tok & t4 & H4 & H).
  apply getitem_ok_inv in H4 as [Htok ->].
  apply download_wget_file_ok_inv in H. cbv zeta in H.
  rewrite <- !app_assoc in H. simpl in H.
  eexists _, p1, p2, p3, _.
  split; [exact H |]. vm_compute.
  repeat split. auto 20.
Qed.

Lemma C9_wan_links_witness :
  let self := self_attrs (instantiate C_WanComfyAppBuilder) in
  let run := vt_hf_download (mro C_WanComfyAppBuilder)
               (friendly_env None None) self civitai_tokens [] in
  fst run = Ok tt
  /\ length (links_under (_comfy_models_dir self +:+ "/diffusion_models")
               (snd run)) = 1%nat
  /\ length (links_under (_comfy_models_dir self +:+ "/text_encoders")
               (snd run)) = 1%nat.
Proof.
  intros self run.
  destruct (C9_wan_links (friendly_env None None) civitai_tokens [] (snd run))
    as (evs & p1 & p2 & p3 & url & Htr & _ & _ & _ & Hd & Ht & _).
  { vm_compute. reflexivity. }
  simpl in Htr. rewrite Htr.
  split; [vm_compute; reflexivity |].
  unfold self. rewrite Hd, Ht. split; reflexivity.
Defined.

(** ** The build pipeline *)

Lemma mro_download_models (c : class) :
  vt_download_models (mro c) = ComfyAppBuilder._download_models.
Proof. destruct c; reflexivity. Qed.

Lemma mro_copy_files (c : class) :
  vt_copy_files (mro c) = ComfyAppBuilder._copy_files.
Proof. destruct c; reflexivity. Qed.

Lemma mro_create_output_vol (c : class) :
  vt_create_output_vol (mro c) = ComfyAppBuilder._create_output_vol.
Proof. destruct c; reflexivity. Qed.

Lemma download_models_eq (E : Env) (a : attrs) (image : modal.Image)
    (redownload : bool) (tr : list event) :
  ComfyAppBuilder._download_models E a image redownload tr =
    match tokens_json E with
    | Some toks =>
        (Ok (with_models a image redownload toks, hf_hub_cache),
         tr ++ [OpenTokens (Some toks)])
    | None => (Raise OSError, tr ++ [OpenTokens None])
    end.
Proof.
  unfold ComfyAppBuilder._download_models, ComfyAppBuilder.load_tokens, bind.
  destruct (tokens_json E) as [toks |]; [| reflexivity].
  unfold ret, with_models, modal.run_function, modal.env, hf_hub_cache.
  rewrite <- app_assoc. reflexivity.
Qed.

(** The run of the pipeline when tokens.json can be read. *)
Lemma pipeline_eq (E : Env) (self : builder) (redownload : bool)
    (toks : gmap string string) (tr : list event) :
  tokens_json E = Some toks ->
  let a := self_attrs self in
  let vt := mro (__class__ a) in
  let i1 := vt_build_image vt a in
  let i2 := vt_install_comfy_nodes vt a i1 in
  let i3 := vt_post_install_dep vt a i2 in
  let i4 := vt_copy_files vt a i3 in
  let i5 := with_models a i4 redownload toks in
  let i6 := fst (vt_create_output_vol vt a i5) in
  let output_vol := snd (vt_create_output_vol vt a i5) in
  ComfyAppBuilder._build_image_and_volumes mro E self redownload tr =
    (Ok {| self_attrs := a;
           _image := Some i6;
           _volumes := <[ _comfy_output_dir a := output_vol ]>
                         (<[ _cache_dir a := hf_hub_cache ]> ∅) |},
     tr ++ [ StageCall St_build_image None i1;
             StageCall St_install_comfy_nodes (Some i1) i2;
             StageCall St_post_install_dep (Some i2) i3;
             StageCall St_copy_files (Some i3) i4;
             OpenTokens (Some toks);
             StageCall St_download_models (Some i4) i5;
             StageCall St_create_output_vol (Some i5) i6 ]).
Proof.
  intros Htok a vt i1 i2 i3 i4 i5 i6 output_vol.
  unfold ComfyAppBuilder._build_image_and_volumes.
  fold a. fold vt. cbv zeta. fold i1. fold i2. fold i3. fold i4.
  unfold bind at 1. unfold emit at 1.
  unfold bind at 1. unfold emit at 1.
  unfold bind at 1. unfold emit at 1.
  unfold bind at 1. unfold emit at 1.
  unfold bind at 1.
  unfold vt at 1. rewrite mro_download_models, download_models_eq, Htok.
  fold i5.
  unfold bind at 1. unfold emit at 1.
  subst i6 output_vol.
  destruct (vt_create_output_vol vt a i5) as [i6 output_vol]. simpl fst. simpl snd.
  unfold bind, emit, ret.
  rewrite <- !app_assoc. reflexivity.
Qed.

Lemma stage_extends_input (c : class) (a : attrs) (image : modal.Image) :
  image `prefix_of` vt_install_comfy_nodes (mro c) a image
  /\ image `prefix_of` vt_post_install_dep (mro c) a image
  /\ image `prefix_of` vt_copy_files (mro c) a image
  /\ image `prefix_of` fst (vt_create_output_vol (mro c) a image).
Proof.
  destruct c; simpl;
    unfold ComfyAppBuilder._install_comfy_nodes,
      ComfyAppBuilder._post_install_dep, ComfyAppBuilder._copy_files,
      ACEStepComfyAppBuilder._install_comfy_nodes,
      ACEStepComfyAppBuilder._post_install_dep,
      KritaComfyAppBuilder._install_comfy_nodes,
      QwenComfyAppBuilder._install_comfy_nodes,
      WanComfyAppBuilder._install_comfy_nodes,
      modal.run_commands, modal.pip_install, modal.add_local_python_source,
      modal.add_local_file; simpl;
    unfold ComfyAppBuilder._install_comfy_nodes,
      ComfyAppBuilder._post_install_dep;
    rewrite <- ?app_assoc;
    repeat split; first [reflexivity | apply prefix_app_r; reflexivity].
Qed.

(** C3: one invocation of [_build_image_and_volumes], for a builder of any
    of the six classes, calls the six stages once each in the order
    [_build_image], [_install_comfy_nodes], [_post_install_dep],
    [_copy_files], [_download_models], [_create_output_vol]; every stage
    after the first receives the image the previous stage returned and
    returns an image that extends it; the image of the last stage becomes
    [self._image], and the two volumes are stored under the cache and output
    directories.  (tokens.json has to be readable for the fifth stage to
    return.) *)
Theorem C3_pipeline_stage_order (E : Env) (self : builder) (redownload : bool)
    (toks : gmap string string) (tr : list event) :
  tokens_json E = Some toks ->
  let a := self_attrs self in
  let vt := mro (__class__ a) in
  exists self' evs i1 i2 i3 i4 i5 i6,
    ComfyAppBuilder._build_image_and_volumes mro E self redownload tr
      = (Ok self', tr ++ evs)
    /\ stage_calls evs =
         [ (St_build_image, None, i1);
           (St_install_comfy_nodes, Some i1, i2);
           (St_post_install_dep, Some i2, i3);
           (St_copy_files, Some i3, i4);
           (St_download_models, Some i4, i5);
           (St_create_output_vol, Some i5, i6) ]
    /\ i1 = vt_build_image vt a
    /\ i2 = vt_install_comfy_nodes vt a i1
    /\ i3 = vt_post_install_dep vt a i2
    /\ i4 = vt_copy_files vt a i3
    /\ i5 = with_models a i4 redownload toks
    /\ i6 = fst (vt_create_output_vol vt a i5)
    /\ (i1 `prefix_of` i2 /\ i2 `prefix_of` i3 /\ i3 `prefix_of` i4
        /\ i4 `prefix_of` i5 /\ i5 `prefix_of` i6)
    /\ _image self' = Some i6
    /\ _volumes self' =
         <[ _comfy_output_dir a :=
              modal.Volume_from_name (_output_vol_name a) true ]>
           (<[ _cache_dir a := hf_hub_cache ]> ∅).
Proof.
  intros Htok a vt.
  do 8 eexists.
  split; [apply (pipeline_eq E self redownload toks tr Htok) |].
  fold a. fold vt.
  split; [reflexivity |].
  do 6 (split; [reflexivity |]).
  split.
  { destruct (stage_extends_input (__class__ a) a (vt_build_image vt a))
      as (H2 & _).
    destruct (stage_extends_input (__class__ a) a
                (vt_install_comfy_nodes vt a (vt_build_image vt a)))
      as (_ & H3 & _).
    destruct (stage_extends_input (__class__ a) a
                (vt_post_install_dep vt a
                   (vt_install_comfy_nodes vt a (vt_build_image vt a))))
      as (_ & _ & H4 & _).
    split; [exact H2 |]. split; [exact H3 |]. split; [exact H4 |].
    split; [apply prefix_app_r; reflexivity |].
    apply stage_extends_input. }
  split; [reflexivity |].
  simpl _volumes.
  unfold vt. rewrite mro_create_output_vol. reflexivity.
Qed.

Lemma C3_pipeline_stage_order_witness :
  exists self' evs,
    ComfyAppBuilder._build_image_and_volumes mro
      (friendly_env None (Some civitai_tokens))
      (instantiate C_KritaComfyAppBuilder) false []
    = (Ok self', evs)
    /\ map (fun x => fst (fst x)) (stage_calls evs) =
         [ St_build_image; St_install_comfy_nodes; St_post_install_dep;
           St_copy_files; St_download_models; St_create_output_vol ].
Proof.
  destruct (C3_pipeline_stage_order (friendly_env None (Some civitai_tokens))
              (instantiate C_KritaComfyAppBuilder) false civitai_tokens []
              eq_refl)
    as (self' & evs & i1 & i2 & i3 & i4 & i5 & i6 & Hrun & Hcalls & _).
  exists self', evs. split; [exact Hrun |].
  rewrite Hcalls. reflexivity.
Defined.

(** ** C4: overrides call the parent first and only append *)

Ltac settle_extends :=
  intros self; eexists; intros sup; intros;
  cbv beta delta
    [ACEStepComfyAppBuilder._build_image KritaComfyAppBuilder._build_image
     ACEStepComfyAppBuilder._install_comfy_nodes
     KritaComfyAppBuilder._install_comfy_nodes
     QwenComfyAppBuilder._install_comfy_nodes
     WanComfyAppBuilder._install_comfy_nodes
     ACEStepComfyAppBuilder._post_install_dep
     modal.apt_install modal.pip_install modal.run_commands] zeta;
  rewrite <- ?app_assoc; reflexivity.

(** C4: each of the eleven overrides, whatever its parent class does, is
    the parent's method followed by steps of its own.  Hence for every class
    the image a stage produces starts with the image the base class's stage
    produces from the same input, and the trace of [_hf_download] starts
    with the trace of the base class's [_hf_download]. *)
Theorem C4_overrides_extend_the_base :
  (extends_build_image ACEStepComfyAppBuilder._build_image
   /\ extends_build_image KritaComfyAppBuilder._build_image)
  /\ (extends_stage vt_install_comfy_nodes
        ACEStepComfyAppBuilder._install_comfy_nodes
      /\ extends_stage vt_install_comfy_nodes
           KritaComfyAppBuilder._install_comfy_nodes
      /\ extends_stage vt_install_comfy_nodes
           QwenComfyAppBuilder._install_comfy_nodes
      /\ extends_stage vt_install_comfy_nodes
           WanComfyAppBuilder._install_comfy_nodes)
  /\ extends_stage vt_post_install_dep ACEStepComfyAppBuilder._post_install_dep
  /\ (extends_hf_download ACEStepComfyAppBuilder._hf_download
      /\ extends_hf_download FluxComfyAppBuilder._hf_download
      /\ extends_hf_download KritaComfyAppBuilder._hf_download
      /\ extends_hf_download QwenComfyAppBuilder._hf_download
      /\ extends_hf_download WanComfyAppBuilder._hf_download)
  /\ (forall c self image,
        vt_build_image base_vtable self `prefix_of` vt_build_image (mro c) self
        /\ vt_install_comfy_nodes base_vtable self image
             `prefix_of` vt_install_comfy_nodes (mro c) self image
        /\ vt_post_install_dep base_vtable self image
             `prefix_of` vt_post_install_dep (mro c) self image)
  /\ (forall c E self tokens tr,
        snd (vt_hf_download base_vtable E self tokens tr)
          `prefix_of` snd (vt_hf_download (mro c) E self tokens tr)).
Proof.
  split; [split; settle_extends |].
  split; [repeat split; settle_extends |].
  split; [settle_extends |].
  split; [repeat split; intros E self tokens; eexists; intros sup tr;
          reflexivity |].
  split.
  - intros c self image.
    destruct (stage_extends_input c self image) as (Hn & Hp & _).
    split; [| split; [exact Hn | exact Hp]].
    destruct c; simpl;
      unfold ACEStepComfyAppBuilder._build_image,
        KritaComfyAppBuilder._build_image, modal.apt_install,
        modal.pip_install; simpl;
      rewrite <- ?app_assoc;
      first [reflexivity | apply prefix_app_r; reflexivity
            | eexists; reflexivity].
  - intros c E self tokens tr. simpl.
    destruct (aborting_hf_download E c self tokens tr) as (evs & -> & _).
    apply prefix_app_r. reflexivity.
Qed.

(** ** C8: the force-redownload flag *)

Lemma create_output_vol_eq (a : attrs) (image : modal.Image) :
  ComfyAppBuilder._create_output_vol a image =
    (image ++ [modal.run_commands_ ["rm -rf " +:+ _comfy_output_dir a]],
     modal.Volume_from_name (_output_vol_name a) true).
Proof. reflexivity. Qed.

Lemma pipeline_run_functions (a : attrs) (r : bool)
    (toks : gmap string string) :
  let vt := mro (__class__ a) in
  run_functions
    (fst (vt_create_output_vol vt a
            (with_models a
               (vt_copy_files vt a
                  (vt_post_install_dep vt a
                     (vt_install_comfy_nodes vt a (vt_build_image vt a))))
               r toks)))
  = [download_step a r toks].
Proof.
  cbv zeta. rewrite mro_create_output_vol, create_output_vol_eq. simpl fst.
  unfold with_models, run_functions.
  rewrite !List.filter_app. fold (download_step a r toks).
  destruct (__class__ a); reflexivity.
Qed.

Lemma volumes_assigned (k1 k2 : string) (v1 v2 : modal.Volume) :
  bool_decide (<[ k1 := v1 ]> (<[ k2 := v2 ]> (∅ : gmap string modal.Volume))
               = ∅) = false.
Proof. apply bool_decide_eq_false_2, insert_non_empty. Qed.

(** The run of [main.py] for a registered workload when tokens.json can be
    read. *)
Lemma main_run_eq (E : Env) (v : string) (c : class)
    (toks : gmap string string) (tr : list event) :
  environ_APP E = Some v ->
  main.APP_REGISTRY !! Py.strip (Py.lower v) = Some c ->
  tokens_json E = Some toks ->
  let a := self_attrs (instantiate c) in
  let vt := mro (__class__ a) in
  let i1 := vt_build_image vt a in
  let i2 := vt_install_comfy_nodes vt a i1 in
  let i3 := vt_post_install_dep vt a i2 in
  let i4 := vt_copy_files vt a i3 in
  let i5 := with_models a i4 false toks in
  let i6 := fst (vt_create_output_vol vt a i5) in
  let volumes := <[ _comfy_output_dir a :=
                      snd (vt_create_output_vol vt a i5) ]>
                   (<[ _cache_dir a := hf_hub_cache ]> ∅) in
  let built := {| self_attrs := a; _image := Some i6; _volumes := volumes |} in
  let app := modal.App_ (_app_name a) (Some i6) in
  main.run E tr =
    (Ok (built, app),
     tr ++ [ StageCall St_build_image None i1;
             StageCall St_install_comfy_nodes (Some i1) i2;
             StageCall St_post_install_dep (Some i2) i3;
             StageCall St_copy_files (Some i3) i4;
             OpenTokens (Some toks);
             StageCall St_download_models (Some i4) i5;
             StageCall St_create_output_vol (Some i5) i6;
             Print ("`modal volume get " +:+ _output_vol_name a
                    +:+ " <file>` to download output generations");
             Print ("`modal volume delete " +:+ _output_vol_name a
                    +:+ " -y` to delete the output volume");
             RegisterWebFunction
               {| wf_app := app;
                  wf_max_containers := 1;
                  wf_gpu := gpu a;
                  wf_volumes := volumes;
                  wf_max_inputs := 10;
                  wf_port := 8000;
                  wf_startup_timeout := 60;
                  wf_command := "comfy launch -- --listen 0.0.0.0 --port 8000" |} ]).
Proof.
  intros Henv Hreg Htok a vt i1 i2 i3 i4 i5 i6 volumes built app.
  unfold main.run. unfold bind at 1.
  rewrite select_builder_eq, Henv, Hreg.
  unfold ComfyAppBuilder.build_app. cbn [default from_option].
  unfold bind at 1. unfold bind at 1.
  rewrite (pipeline_eq E (instantiate c) false toks tr Htok). cbv zeta.
  fold a. fold vt. fold i1. fold i2. fold i3. fold i4. fold i5. fold i6.
  fold volumes. fold built.
  unfold ret at 1. cbn [self_attrs _image]. fold app.
  unfold ComfyAppBuilder.print_output_volume_usage.
  unfold bind at 1. unfold bind at 1. unfold print, emit.
  cbn [self_attrs].
  unfold ComfyAppBuilder.get_volumes. cbn [default from_option _volumes].
  unfold bind at 1. unfold bind at 1.
  change (_volumes built) with volumes.
  assert (Hset : bool_decide (volumes = ∅) = false)
    by apply volumes_assigned.
  rewrite Hset.
  unfold ret at 1. unfold ret at 1.
  unfold bind, ret. cbn [self_attrs _volumes _image].
  rewrite <- !app_assoc. reflexivity.
Qed.



(* ===================================================================== *)
(** * Further properties *)
(* ===================================================================== *)

(** ** Normalising the workload selector *)

Lemma lower_char_idem (c : ascii) :
  Py.lower_char (Py.lower_char c) = Py.lower_char c.
Proof.
  destruct c as [[] [] [] [] [] [] [] []]; reflexivity.
Qed.

Lemma isspace_lower_char (c : ascii) :
  Py.isspace (Py.lower_char c) = Py.isspace c.
Proof.
  destruct c as [[] [] [] [] [] [] [] []]; reflexivity.
Qed.

Lemma lower_idem (s : string) : Py.lower (Py.lower s) = Py.lower s.
Proof.
  induction s as [| c r IH]; simpl; [reflexivity |].
  rewrite lower_char_idem, IH. reflexivity.
Qed.

Lemma lower_lstrip (s : string) :
  Py.lower (Py.lstrip s) = Py.lstrip (Py.lower s).
Proof.
  induction s as [| c r IH]; simpl; [reflexivity |].
  rewrite isspace_lower_char.
  destruct (Py.isspace c); [exact IH | reflexivity].
Qed.

Lemma lower_rstrip (s : string) :
  Py.lower (Py.rstrip s) = Py.rstrip (Py.lower s).
Proof.
  induction s as [| c r IH]; simpl; [reflexivity |].
  rewrite <- IH, isspace_lower_char.
  destruct (Py.rstrip r) as [| d r']; simpl.
  - destruct (Py.isspace c); reflexivity.
  - reflexivity.
Qed.

Lemma rstrip_idem (s : string) : Py.rstrip (Py.rstrip s) = Py.rstrip s.
Proof.
  induction s as [| c r IH]; simpl; [reflexivity |].
  destruct (Py.rstrip r) as [| d r'] eqn:Hr.
  - destruct (Py.isspace c) eqn:Hc; simpl; [reflexivity |].
    rewrite Hc. reflexivity.
  - simpl. simpl in IH. rewrite IH. reflexivity.
Qed.

Lemma lstrip_head (s : string) :
  Py.lstrip s = EmptyString
  \/ exists c r, Py.lstrip s = String c r /\ Py.isspace c = false.
Proof.
  induction s as [| c r IH]; simpl; [left; reflexivity |].
  destruct (Py.isspace c) eqn:Hc; [exact IH |].
  right. exists c, r. auto.
Qed.

Lemma rstrip_keeps_head (c : ascii) (r : string) :
  Py.isspace c = false ->
  exists r', Py.rstrip (String c r) = String c r'.
Proof.
  intros Hc. simpl. destruct (Py.rstrip r) as [| d r'].
  - rewrite Hc. eauto.
  - eauto.
Qed.

Lemma strip_idem (s : string) : Py.strip (Py.strip s) = Py.strip s.
Proof.
  unfold Py.strip.
  destruct (lstrip_head s) as [-> | (c & r & -> & Hc)]; [reflexivity |].
  destruct (rstrip_keeps_head c r Hc) as (r' & Hr).
  rewrite Hr. simpl Py.lstrip. rewrite Hc. rewrite <- Hr.
  apply rstrip_idem.
Qed.

Lemma lower_strip (s : string) : Py.lower (Py.strip s) = Py.strip (Py.lower s).
Proof.
  unfold Py.strip. rewrite lower_rstrip, lower_lstrip. reflexivity.
Qed.

Lemma normalise_idem (v : string) : normalise (normalise v) = normalise v.
Proof.
  unfold normalise. rewrite lower_strip, lower_idem. apply strip_idem.
Qed.

Lemma pipeline_reads_tokens_only (E1 E2 : Env) (self : builder) (r : bool)
    (tr : list event) :
  tokens_json E1 = tokens_json E2 ->
  ComfyAppBuilder._build_image_and_volumes mro E1 self r tr
  = ComfyAppBuilder._build_image_and_volumes mro E2 self r tr.
Proof.
  intros H. unfold ComfyAppBuilder._build_image_and_volumes. cbv zeta.
  rewrite mro_download_models. unfold bind, emit.
  rewrite !download_models_eq, H. reflexivity.
Qed.

(** X1: the normalisation of the selector is idempotent and does not
    depend on the order of its two steps, so the entry point behaves the
    same for a value of APP and for that value already normalised: the same
    builder, or the same [KeyError], and the same run. *)
Theorem X1_selection_ignores_case_and_padding (E : Env) (v : string)
    (tr : list event) :
  normalise (normalise v) = normalise v
  /\ Py.lower (Py.strip v) = Py.strip (Py.lower v)
  /\ main.select_builder (with_APP E v) tr
     = main.select_builder (with_APP E (normalise v)) tr
  /\ main.run (with_APP E v) tr = main.run (with_APP E (normalise v)) tr.
Proof.
  assert (Hsel : forall tr',
            main.select_builder (with_APP E v) tr'
            = main.select_builder (with_APP E (normalise v)) tr').
  { intros tr'. rewrite !select_builder_eq.
    pose proof (normalise_idem v) as Hn.
    unfold with_APP, normalise in *. cbn [environ_APP].
    rewrite Hn. reflexivity. }
  split; [apply normalise_idem |]. split; [apply lower_strip |].
  split; [apply Hsel |].
  assert (Hbuild : forall b tr',
            ComfyAppBuilder.build_app mro (with_APP E v) b None tr'
            = ComfyAppBuilder.build_app mro (with_APP E (normalise v)) b None
                tr').
  { intros b tr'. unfold ComfyAppBuilder.build_app, bind.
    rewrite (pipeline_reads_tokens_only (with_APP E v)
               (with_APP E (normalise v))); reflexivity. }
  assert (Hvols : forall b tr',
            ComfyAppBuilder.get_volumes mro (with_APP E v) b None tr'
            = ComfyAppBuilder.get_volumes mro (with_APP E (normalise v)) b
                None tr').
  { intros b tr'. unfold ComfyAppBuilder.get_volumes, bind.
    destruct (bool_decide (_volumes b = ∅)); [| reflexivity].
    rewrite (pipeline_reads_tokens_only (with_APP E v)
               (with_APP E (normalise v))); reflexivity. }
  unfold main.run, bind. rewrite Hsel.
  destruct (main.select_builder (with_APP E (normalise v)) tr)
    as [[b | e] tr1]; [| reflexivity].
  rewrite Hbuild.
  destruct (ComfyAppBuilder.build_app mro (with_APP E (normalise v)) b None
              tr1) as [[[b' app] | e] tr2]; [| reflexivity].
  destruct (ComfyAppBuilder.print_output_volume_usage b' tr2)
    as [[u | e] tr3]; [| reflexivity].
  rewrite Hvols. reflexivity.
Qed.

(** X2: every key of the registry is already in normal form, so each key,
    given as the value of APP, selects a fresh builder of its own class. *)
Theorem X2_registry_keys_are_reachable (E : Env) (k : string) (c : class)
    (tr : list event) :
  main.APP_REGISTRY !! k = Some c ->
  normalise k = k
  /\ main.select_builder (with_APP E k) tr = (Ok (instantiate c), tr)
  /\ __class__ (self_attrs (instantiate c)) = c
  /\ _image (instantiate c) = None
  /\ _volumes (instantiate c) = ∅.
Proof.
  intros H.
  assert (Hk : normalise k = k).
  { apply registry_is_workloads in H. unfold workloads in H. simpl in H.
    repeat destruct H as [H | H]; try contradiction;
      inversion H; subst; reflexivity. }
  split; [exact Hk |]. split.
  - rewrite select_builder_eq.
    unfold with_APP, normalise in *. cbn [environ_APP].
    rewrite Hk, H. reflexivity.
  - destruct c; repeat split; reflexivity.
Qed.

Lemma X2_registry_keys_are_reachable_witness :
  normalise "ace-step" = "ace-step"
  /\ main.select_builder (with_APP (friendly_env None None) "ace-step") []
     = (Ok (instantiate C_ACEStepComfyAppBuilder), []).
Proof.
  destruct (X2_registry_keys_are_reachable (friendly_env None None)
              "ace-step" C_ACEStepComfyAppBuilder [] eq_refl)
    as (Hk & Hsel & _).
  split; [exact Hk | exact Hsel].
Defined.

(** ** The pipeline as a whole *)

(** X3: for every class the output volume is named after the application
    ([_app_name] followed by [-output]); after the pipeline the volume
    mounted at the output directory carries that name, and the two hints
    [print_output_volume_usage] prints name that same volume, whether or not
    the builder has been built. *)
Theorem X3_output_volume_named_consistently (E : Env) (c : class)
    (r : bool) (toks : gmap string string) (tr : list event) :
  tokens_json E = Some toks ->
  let a := self_attrs (instantiate c) in
  _output_vol_name a = _app_name a +:+ "-output"
  /\ exists built tr' vol,
       ComfyAppBuilder._build_image_and_volumes mro E (instantiate c) r tr
         = (Ok built, tr')
       /\ _volumes built !! _comfy_output_dir a = Some vol
       /\ modal.vol_name vol = _output_vol_name a
       /\ (forall self tr0, In self [instantiate c; built] ->
             exists tr1,
               ComfyAppBuilder.print_output_volume_usage self tr0
                 = (Ok tt, tr0 ++ tr1)
               /\ printed tr1 = usage_hints (modal.vol_name vol)
               /\ length tr1 = 2%nat).
Proof.
  intros Htok a.
  split; [destruct c; reflexivity |].
  do 3 eexists.
  split; [apply (pipeline_eq E (instantiate c) r toks tr Htok) |].
  cbn [_volumes]. rewrite lookup_insert_eq.
  split; [reflexivity |].
  rewrite mro_create_output_vol.
  split; [reflexivity |].
  intros self tr0 Hin.
  assert (Ha : self_attrs self = a)
    by (destruct Hin as [<- | [<- | []]]; reflexivity).
  eexists.
  unfold ComfyAppBuilder.print_output_volume_usage, bind, print, emit.
  rewrite Ha, <- app_assoc.
  split; [reflexivity |]. split; reflexivity.
Qed.

Lemma X3_output_volume_named_consistently_witness :
  _output_vol_name (self_attrs (instantiate C_QwenComfyAppBuilder))
  = "qwen-comfyui-output"
  /\ snd (ComfyAppBuilder.print_output_volume_usage
            (instantiate C_QwenComfyAppBuilder) [])
     = [ Print "`modal volume get qwen-comfyui-output <file>` to download output generations";
         Print "`modal volume delete qwen-comfyui-output -y` to delete the output volume" ].
Proof.
  destruct (X3_output_volume_named_consistently
              (friendly_env None (Some civitai_tokens)) C_QwenComfyAppBuilder
              false civitai_tokens [] eq_refl)
    as (Hname & built & tr' & vol & _ & _ & _ & _).
  split; [rewrite Hname; reflexivity | reflexivity].
Defined.

(** X4: the result and the trace of the pipeline depend only on the
    attributes of the builder, the flag and tokens.json.  They do not depend
    on the [_image] and [_volumes] of an earlier build (a rebuild starts
    again from the base image and does not stack steps on the old one), nor
    on the hub or the shell (nothing is fetched while the image is
    described). *)
Theorem X4_pipeline_depends_on_attributes_only (E1 E2 : Env)
    (self1 self2 : builder) (r : bool) (tr : list event) :
  tokens_json E1 = tokens_json E2 ->
  self_attrs self1 = self_attrs self2 ->
  ComfyAppBuilder._build_image_and_volumes mro E1 self1 r tr
  = ComfyAppBuilder._build_image_and_volumes mro E2 self2 r tr.
Proof.
  intros Htok Hattrs.
  rewrite (pipeline_reads_tokens_only E1 E2 self1 r tr Htok).
  unfold ComfyAppBuilder._build_image_and_volumes.
  rewrite Hattrs. reflexivity.
Qed.

Lemma X4_pipeline_depends_on_attributes_only_witness :
  exists built tr',
    ComfyAppBuilder._build_image_and_volumes mro
      (friendly_env None (Some civitai_tokens))
      (instantiate C_FluxComfyAppBuilder) false [] = (Ok built, tr')
    /\ ComfyAppBuilder._build_image_and_volumes mro
         (wget_fails_env (Some civitai_tokens)) built false []
       = (Ok built, tr').
Proof.
  do 2 eexists.
  split;
    [apply (pipeline_eq (friendly_env None (Some civitai_tokens))
              (instantiate C_FluxComfyAppBuilder) false civitai_tokens []
              eq_refl) |].
  rewrite <- (pipeline_eq (friendly_env None (Some civitai_tokens))
                (instantiate C_FluxComfyAppBuilder) false civitai_tokens []
                eq_refl).
  apply X4_pipeline_depends_on_attributes_only; reflexivity.
Defined.

(** The run of the pipeline when tokens.json cannot be read. *)
Lemma pipeline_unreadable_eq (E : Env) (self : builder) (r : bool)
    (tr : list event) :
  tokens_json E = None ->
  let a := self_attrs self in
  let vt := mro (__class__ a) in
  let i1 := vt_build_image vt a in
  let i2 := vt_install_comfy_nodes vt a i1 in
  let i3 := vt_post_install_dep vt a i2 in
  let i4 := vt_copy_files vt a i3 in
  ComfyAppBuilder._build_image_and_volumes mro E self r tr =
    (Raise OSError,
     tr ++ [ StageCall St_build_image None i1;
             StageCall St_install_comfy_nodes (Some i1) i2;
             StageCall St_post_install_dep (Some i2) i3;
             StageCall St_copy_files (Some i3) i4;
             OpenTokens None ]).
Proof.
  intros Htok a vt i1 i2 i3 i4.
  unfold ComfyAppBuilder._build_image_and_volumes. cbv zeta.
  rewrite mro_download_models. unfold bind, emit.
  rewrite download_models_eq, Htok.
  rewrite <- !app_assoc. reflexivity.
Qed.

(** X5: [get_volumes] builds only when nothing was built.  On a builder
    whose [_volumes] is not empty it returns them and does nothing else,
    whatever flag it is given; in particular after [build_app] it returns
    the builder unchanged and adds no event, so the flag of [get_volumes]
    has no effect there.  On a fresh builder it runs the pipeline once. *)
Theorem X5_get_volumes_builds_at_most_once (E : Env)
    (toks : gmap string string) :
  tokens_json E = Some toks ->
  (forall self flag tr,
     _volumes self <> ∅ ->
     ComfyAppBuilder.get_volumes mro E self flag tr
       = (Ok (self, _volumes self), tr))
  /\ (forall self flag1 flag2 tr,
        exists built app tr1,
          ComfyAppBuilder.build_app mro E self flag1 tr
            = (Ok (built, app), tr1)
          /\ ComfyAppBuilder.get_volumes mro E built flag2 tr1
             = (Ok (built, _volumes built), tr1))
  /\ (forall self flag tr,
        _volumes self = ∅ ->
        exists built evs,
          ComfyAppBuilder.get_volumes mro E self flag tr
            = (Ok (built, _volumes built), tr ++ evs)
          /\ ComfyAppBuilder._build_image_and_volumes mro E self
               (default false flag) tr = (Ok built, tr ++ evs)
          /\ length (stage_calls evs) = 6%nat
          /\ _volumes built <> ∅).
Proof.
  intros Htok.
  assert (Hskip : forall self flag tr,
            _volumes self <> ∅ ->
            ComfyAppBuilder.get_volumes mro E self flag tr
            = (Ok (self, _volumes self), tr)).
  { intros self flag tr Hne. unfold ComfyAppBuilder.get_volumes, bind.
    rewrite bool_decide_eq_false_2 by exact Hne. reflexivity. }
  split; [exact Hskip |]. split.
  - intros self flag1 flag2 tr. do 3 eexists.
    unfold ComfyAppBuilder.build_app, bind.
    rewrite (pipeline_eq E self (default false flag1) toks tr Htok).
    cbv zeta. unfold ret.
    split; [reflexivity |].
    apply Hskip. cbn [_volumes]. apply insert_non_empty.
  - intros self flag tr Hempty. do 2 eexists.
    unfold ComfyAppBuilder.get_volumes, bind.
    rewrite bool_decide_eq_true_2 by exact Hempty.
    rewrite (pipeline_eq E self (default false flag) toks tr Htok).
    cbv zeta. unfold ret.
    split; [reflexivity |]. split; [reflexivity |].
    split; [reflexivity |].
    cbn [_volumes]. apply insert_non_empty.
Qed.

Lemma X5_get_volumes_builds_at_most_once_witness :
  let E := friendly_env None (Some civitai_tokens) in
  exists built app tr1,
    ComfyAppBuilder.build_app mro E (instantiate C_WanComfyAppBuilder) None []
      = (Ok (built, app), tr1)
    /\ ComfyAppBuilder.get_volumes mro E built (Some true) tr1
       = (Ok (built, _volumes built), tr1).
Proof.
  intros E.
  destruct (X5_get_volumes_builds_at_most_once E civitai_tokens eq_refl)
    as (_ & Hafter & _).
  apply (Hafter (instantiate C_WanComfyAppBuilder) None (Some true) []).
Defined.

(** X6: the volumes the pipeline stores.  The output volume is always
    mounted at the output directory.  When the cache directory differs from
    it (as for every class) there are exactly two mounts and the cache
    volume [hf-hub-cache] is mounted at the cache directory; were the two
    directories the same, the dict would keep one entry, the output volume.
    The model-download step mounts the cache volume at the cache directory
    in either case. *)
Theorem X6_volumes_of_a_built_builder (E : Env) (self : builder) (r : bool)
    (toks : gmap string string) (tr : list event) :
  tokens_json E = Some toks ->
  let a := self_attrs self in
  let output_vol := modal.Volume_from_name (_output_vol_name a) true in
  exists built tr' image step,
    ComfyAppBuilder._build_image_and_volumes mro E self r tr = (Ok built, tr')
    /\ _volumes built !! _comfy_output_dir a = Some output_vol
    /\ (_cache_dir a <> _comfy_output_dir a ->
        _volumes built !! _cache_dir a = Some hf_hub_cache
        /\ size (_volumes built) = 2%nat)
    /\ (_cache_dir a = _comfy_output_dir a ->
        _volumes built = {[ _comfy_output_dir a := output_vol ]})
    /\ _image built = Some image
    /\ run_functions image = [step]
    /\ (exists f force kw,
          step = modal.run_function_ f {[ _cache_dir a := hf_hub_cache ]}
                   force kw)
    /\ (forall c, _cache_dir (self_attrs (instantiate c))
                  <> _comfy_output_dir (self_attrs (instantiate c))).
Proof.
  intros Htok a output_vol. do 4 eexists.
  split; [apply (pipeline_eq E self r toks tr Htok) |].
  cbn [_volumes _image]. fold a. rewrite mro_create_output_vol. cbn [snd].
  fold output_vol.
  split; [apply lookup_insert_eq |]. split.
  { intros Hne. split.
    - rewrite lookup_insert_ne by congruence. apply lookup_insert_eq.
    - rewrite map_size_insert_None.
      + rewrite map_size_insert_None; [reflexivity | apply lookup_empty].
      + rewrite lookup_insert_ne by exact Hne. apply lookup_empty. }
  split.
  { intros Heq. rewrite Heq. rewrite insert_insert_eq. reflexivity. }
  split; [reflexivity |].
  split.
  { pose proof (pipeline_run_functions a r toks) as Hrf.
    cbv zeta in Hrf. rewrite mro_create_output_vol in Hrf. exact Hrf. }
  split; [unfold download_step; eauto |].
  intros c. destruct c; discriminate.
Qed.

Lemma X6_volumes_of_a_built_builder_witness :
  exists built tr',
    ComfyAppBuilder._build_image_and_volumes mro
      (friendly_env None (Some civitai_tokens))
      (instantiate C_KritaComfyAppBuilder) true [] = (Ok built, tr')
    /\ _volumes built !! "/cache" = Some hf_hub_cache
    /\ _volumes built !! "/root/comfy/ComfyUI/output"
       = Some (modal.Volume_from_name "krita-comfyui-output" true)
    /\ size (_volumes built) = 2%nat.
Proof.
  destruct (X6_volumes_of_a_built_builder
              (friendly_env None (Some civitai_tokens))
              (instantiate C_KritaComfyAppBuilder) true civitai_tokens []
              eq_refl)
    as (built & tr' & image & step & Hrun & Hout & Hcache & _).
  exists built, tr'. split; [exact Hrun |].
  destruct Hcache as [Hc Hsize]; [discriminate |].
  split; [exact Hc |]. split; [exact Hout | exact Hsize].
Defined.

(** X7: when tokens.json cannot be read, the pipeline raises [OSError] in
    its fifth stage: the first four stages have run, no volume and no image
    is stored, [build_app] and a first [get_volumes] raise the same, and the
    entry point (for a registered workload) raises before it prints a hint
    or registers the web function. *)
Theorem X7_unreadable_tokens_stop_the_build (E : Env) :
  tokens_json E = None ->
  (forall self r tr,
     exists evs,
       ComfyAppBuilder._build_image_and_volumes mro E self r tr
         = (Raise OSError, tr ++ evs)
       /\ stages_called evs
          = [ St_build_image; St_install_comfy_nodes; St_post_install_dep;
              St_copy_files ]
       /\ last evs = Some (OpenTokens None))
  /\ (forall self flag tr,
        fst (ComfyAppBuilder.build_app mro E self flag tr) = Raise OSError)
  /\ (forall self flag tr,
        _volumes self = ∅ ->
        fst (ComfyAppBuilder.get_volumes mro E self flag tr) = Raise OSError)
  /\ (forall v c tr,
        environ_APP E = Some v ->
        main.APP_REGISTRY !! normalise v = Some c ->
        exists evs,
          main.run E tr = (Raise OSError, tr ++ evs)
          /\ printed evs = [] /\ registered evs = []).
Proof.
  intros Htok.
  split.
  { intros self r tr. eexists.
    split; [apply (pipeline_unreadable_eq E self r tr Htok) |].
    split; reflexivity. }
  split.
  { intros self flag tr. unfold ComfyAppBuilder.build_app, bind.
    rewrite (pipeline_unreadable_eq E self (default false flag) tr Htok).
    reflexivity. }
  split.
  { intros self flag tr Hempty. unfold ComfyAppBuilder.get_volumes, bind.
    rewrite bool_decide_eq_true_2 by exact Hempty.
    rewrite (pipeline_unreadable_eq E self (default false flag) tr Htok).
    reflexivity. }
  intros v c tr Henv Hreg. eexists.
  unfold main.run. unfold bind at 1.
  rewrite select_builder_eq, Henv. unfold normalise in Hreg. rewrite Hreg.
  unfold ComfyAppBuilder.build_app, bind.
  rewrite (pipeline_unreadable_eq E (instantiate c) (default false None) tr
             Htok).
  split; [reflexivity |]. split; reflexivity.
Qed.

Lemma X7_unreadable_tokens_stop_the_build_witness :
  exists evs,
    main.run (friendly_env (Some "Krita") None) [] = (Raise OSError, evs)
    /\ length evs = 5%nat /\ registered evs = [].
Proof.
  destruct (X7_unreadable_tokens_stop_the_build
              (friendly_env (Some "Krita") None) eq_refl)
    as (_ & _ & _ & Hmain).
  destruct (Hmain "Krita" C_KritaComfyAppBuilder [] eq_refl eq_refl)
    as (evs & Hrun & _ & Hreg).
  exists evs. split; [exact Hrun |]. split; [| exact Hreg].
  vm_compute in Hrun. inversion Hrun. reflexivity.
Defined.

(** X8: when the entry point succeeds it registers the web function once,
    as its last step, after the six stages and the two hints; the function
    is registered with the GPU tier and the volumes of the builder it
    returns and with the app built from that builder's name and image, on
    port 8000 with at most one container and ten concurrent inputs. *)
Theorem X8_entry_point_registers_last (E : Env) (v : string) (c : class)
    (toks : gmap string string) (tr : list event) :
  environ_APP E = Some v ->
  main.APP_REGISTRY !! normalise v = Some c ->
  tokens_json E = Some toks ->
  exists app_builder app evs f,
    main.run E tr = (Ok (app_builder, app), tr ++ evs)
    /\ registered evs = [f]
    /\ last evs = Some (RegisterWebFunction f)
    /\ stages_called evs
       = [ St_build_image; St_install_comfy_nodes; St_post_install_dep;
           St_copy_files; St_download_models; St_create_output_vol ]
    /\ printed evs = usage_hints (_output_vol_name (self_attrs app_builder))
    /\ self_attrs app_builder = self_attrs (instantiate c)
    /\ wf_app f = app
    /\ modal.app_name app = _app_name (self_attrs app_builder)
    /\ modal.app_image app = _image app_builder
    /\ wf_gpu f = gpu (self_attrs app_builder)
    /\ wf_volumes f = _volumes app_builder
    /\ (wf_max_containers f, wf_max_inputs f, wf_port f, wf_startup_timeout f)
       = (1, 10, 8000, 60).
Proof.
  intros Henv Hreg Htok. do 4 eexists.
  split; [apply (main_run_eq E v c toks tr Henv Hreg Htok) |].
  repeat split.
Qed.

Lemma X8_entry_point_registers_last_witness :
  exists app_builder app evs f,
    main.run (friendly_env (Some " QWEN ") (Some civitai_tokens)) []
      = (Ok (app_builder, app), evs)
    /\ registered evs = [f]
    /\ wf_gpu f = "A100-80GB"
    /\ modal.app_name (wf_app f) = "qwen-comfyui".
Proof.
  destruct (X8_entry_point_registers_last
              (friendly_env (Some " QWEN ") (Some civitai_tokens))
              " QWEN " C_QwenComfyAppBuilder civitai_tokens []
              eq_refl eq_refl eq_refl)
    as (b & app & evs & f & Hrun & Hreg & _ & _ & _ & Hattrs & Happ & Hname
        & _ & Hgpu & _).
  exists b, app, evs, f. split; [exact Hrun |]. split; [exact Hreg |].
  rewrite Hgpu, Happ, Hname, Hattrs. split; reflexivity.
Defined.

(** ** The order of the steps in a built image *)

Ltac settle_precedes :=
  do 2 eexists;
  (split; [vm_compute; reflexivity |]);
  (split; [vm_compute; reflexivity |]);
  lia.

(** X9: in the image of a builder of any class, every tool is installed
    before the step that needs it.  The image starts from the Debian base
    with Python 3.11; git and comfy-cli are installed before the first
    [comfy] command; wget and huggingface_hub are installed, the module
    comfy_utils is copied in and HF_HUB_ENABLE_HF_TRANSFER is set before the
    model-download step; and the last step removes the output directory,
    which is where the output volume is mounted. *)
Theorem X9_tools_precede_their_use (E : Env) (self : builder) (r : bool)
    (toks : gmap string string) (tr : list event) :
  tokens_json E = Some toks ->
  let a := self_attrs self in
  exists built tr' image,
    ComfyAppBuilder._build_image_and_volumes mro E self r tr = (Ok built, tr')
    /\ _image built = Some image
    /\ head image = Some (modal.debian_slim_ "3.11")
    /\ precedes (is_apt_install "git") runs_comfy_cli image
    /\ precedes (is_pip_install "comfy-cli") runs_comfy_cli image
    /\ precedes (is_apt_install "wget") is_run_function image
    /\ precedes (is_pip_install "huggingface_hub[hf_transfer]")
         is_run_function image
    /\ precedes copies_comfy_utils is_run_function image
    /\ precedes sets_hf_transfer is_run_function image
    /\ last image
       = Some (modal.run_commands_ ["rm -rf " +:+ _comfy_output_dir a])
    /\ is_Some (_volumes built !! _comfy_output_dir a).
Proof.
  intros Htok a. do 3 eexists.
  split; [apply (pipeline_eq E self r toks tr Htok) |].
  cbn [_image _volumes]. fold a.
  split; [reflexivity |].
  rewrite mro_create_output_vol, mro_copy_files, create_output_vol_eq.
  cbn [fst snd].
  split; [destruct (__class__ a); reflexivity |].
  do 6 (split; [destruct (__class__ a); settle_precedes |]).
  split; [apply last_snoc |].
  rewrite lookup_insert_eq. eauto.
Qed.

Lemma X9_tools_precede_their_use_witness :
  exists built tr' image,
    ComfyAppBuilder._build_image_and_volumes mro
      (friendly_env None (Some civitai_tokens))
      (instantiate C_WanComfyAppBuilder) false [] = (Ok built, tr')
    /\ _image built = Some image
    /\ precedes (is_apt_install "wget") is_run_function image
    /\ length image = 13%nat.
Proof.
  destruct (X9_tools_precede_their_use
              (friendly_env None (Some civitai_tokens))
              (instantiate C_WanComfyAppBuilder) false civitai_tokens []
              eq_refl)
    as (built & tr' & image & Hrun & Himg & _ & _ & _ & Hwget & _).
  exists built, tr', image.
  split; [exact Hrun |]. split; [exact Himg |]. split; [exact Hwget |].
  rewrite (pipeline_eq (friendly_env None (Some civitai_tokens))
             (instantiate C_WanComfyAppBuilder) false civitai_tokens []
             eq_refl) in Hrun.
  inversion Hrun as [[Hb Htr]]. subst built. cbn [_image] in Himg.
  inversion Himg. reflexivity.
Defined.

(** X10: in the image of the audio workload the pin [numpy==2.2] is
    installed after the custom nodes and is the last step that installs
    anything, as the source requires of it ("must happen after all numpy
    installations"). *)
Theorem X10_ace_step_pins_numpy_last (E : Env) (self : builder) (r : bool)
    (toks : gmap string string) (tr : list event) :
  tokens_json E = Some toks ->
  __class__ (self_attrs self) = C_ACEStepComfyAppBuilder ->
  exists built tr' image j,
    ComfyAppBuilder._build_image_and_volumes mro E self r tr = (Ok built, tr')
    /\ _image built = Some image
    /\ precedes installs_comfy_node (is_pip_install "numpy==2.2") image
    /\ find_index (is_pip_install "numpy==2.2") image = Some j
    /\ existsb installs_software (drop (S j) image) = false
    /\ forallb (fun l => negb (is_run_function l)) (take (S j) image) = true.
Proof.
  intros Htok Hclass. do 4 eexists.
  split; [apply (pipeline_eq E self r toks tr Htok) |].
  cbn [_image]. rewrite Hclass.
  split; [reflexivity |].
  split; [settle_precedes |].
  split; [vm_compute; reflexivity |].
  split; vm_compute; reflexivity.
Qed.

Lemma X10_ace_step_pins_numpy_last_witness :
  exists built tr' image,
    ComfyAppBuilder._build_image_and_volumes mro
      (friendly_env None (Some civitai_tokens))
      (instantiate C_ACEStepComfyAppBuilder) false [] = (Ok built, tr')
    /\ _image built = Some image
    /\ find_index (is_pip_install "numpy==2.2") image = Some 14%nat.
Proof.
  destruct (X10_ace_step_pins_numpy_last
              (friendly_env None (Some civitai_tokens))
              (instantiate C_ACEStepComfyAppBuilder) false civitai_tokens []
              eq_refl eq_refl)
    as (built & tr' & image & j & Hrun & Himg & _ & Hj & _).
  exists built, tr', image.
  split; [exact Hrun |]. split; [exact Himg |].
  rewrite (pipeline_eq (friendly_env None (Some civitai_tokens))
             (instantiate C_ACEStepComfyAppBuilder) false civitai_tokens []
             eq_refl) in Hrun.
  inversion Hrun as [[Hb Htr]]. subst built. cbn [_image] in Himg.
  inversion Himg. reflexivity.
Defined.

(** ** Invariants of the download stage *)

Lemma keeps_ret {A} (Q : list event -> Prop) (a : A) :
  trace_inv Q -> keeps Q (ret a).
Proof. intros [H0 _]. apply appends_ret. exact H0. Qed.

Lemma keeps_bind {A B} (Q : list event -> Prop) (m : M A) (k : A -> M B) :
  trace_inv Q -> keeps Q m -> (forall a, keeps Q (k a)) -> keeps Q (bind m k).
Proof.
  intros [_ Happ] Hm Hk.
  apply appends_bind with (Q1 := fun _ evs => Q evs)
                          (Q2 := fun _ _ evs => Q evs).
  - exact Hm.
  - exact Hk.
  - intros a e1 r e2 H1 H2. apply Happ; assumption.
  - intros e e1 H1. exact H1.
Qed.

Lemma keeps_bind_getitem {V B} (Q : list event -> Prop)
    (d : gmap string V) (key : string) (k : V -> M B) :
  trace_inv Q ->
  (forall v, d !! key = Some v -> keeps Q (k v)) ->
  keeps Q (bind (getitem d key) k).
Proof.
  intros HQ Hk tr. unfold bind, getitem.
  destruct (d !! key) as [v |] eqn:Hd.
  - unfold ret. apply (Hk v eq_refl).
  - exists []. simpl. rewrite app_nil_r. split; [reflexivity | apply HQ].
Qed.

Lemma keeps_for {A} (Q : list event -> Prop) (xs : list A)
    (body : A -> M unit) :
  trace_inv Q -> (forall x, keeps Q (body x)) -> keeps Q (for_ xs body).
Proof.
  intros HQ H. induction xs as [| x xs IH]; simpl.
  - apply keeps_ret, HQ.
  - apply keeps_bind; auto.
Qed.

Ltac settle_keeps eqn :=
  let tr := fresh "tr" in
  intros tr; rewrite eqn; cbv zeta;
  case_oracle_answers;
  eexists; (split; [simpl; rewrite <- ?app_assoc; reflexivity |]);
  simpl; auto.

Section Keeps.
Variable E : Env.
Variable Q : list event -> Prop.

Lemma keeps_subprocess_run (cmd : shell_cmd) :
  (forall rc, Q [SubprocessRun cmd rc]) ->
  keeps Q (comfy_utils.subprocess_run E cmd true).
Proof. intros H. settle_keeps subprocess_run_checked. Qed.

Lemma keeps_download_hf_file repo filename cache_dir save_dir sf token :
  Q [hf_file_message repo filename;
     HfHubDownload repo filename cache_dir token None] ->
  (forall r rc,
     Q [hf_file_message repo filename;
        HfHubDownload repo filename cache_dir token (Some r);
        SubprocessRun
          (ln_s r (save_dir +:+ "/" +:+ default filename sf)) rc]) ->
  keeps Q (comfy_utils.download_hf_file E repo filename cache_dir save_dir
             sf token).
Proof. intros H1 H2. settle_keeps download_hf_file_eq. Qed.

Lemma keeps_download_hf_snapshot repo dir_name cache_dir save_dir allow
    ignore :
  Q [Print ("Downloading " +:+ repo);
     SnapshotDownload repo allow ignore cache_dir None] ->
  (forall r rc,
     Q [Print ("Downloading " +:+ repo);
        SnapshotDownload repo allow ignore cache_dir (Some r);
        SubprocessRun (ln_s r (save_dir +:+ "/" +:+ dir_name)) rc]) ->
  keeps Q (comfy_utils.download_hf_snapshot E repo dir_name cache_dir
             save_dir allow ignore).
Proof. intros H1 H2. settle_keeps download_hf_snapshot_eq. Qed.

Lemma keeps_download_wget_file url filename cache_dir save_dir :
  (forall rc1,
     Q [Print ("Downloading " +:+ url);
        SubprocessRun (wget_q_O (cache_dir +:+ "/" +:+ filename) url) rc1]) ->
  (forall rc1 rc2,
     Q [Print ("Downloading " +:+ url);
        SubprocessRun (wget_q_O (cache_dir +:+ "/" +:+ filename) url) rc1;
        SubprocessRun
          (ln_s (cache_dir +:+ "/" +:+ filename)
                (save_dir +:+ "/" +:+ filename)) rc2]) ->
  keeps Q (comfy_utils.download_wget_file E url filename cache_dir save_dir).
Proof. intros H1 H2. settle_keeps download_wget_file_eq. Qed.

End Keeps.

Lemma trace_inv_Forall (P : event -> Prop) : trace_inv (Forall P).
Proof.
  split; [constructor |]. intros e1 e2 H1 H2. apply Forall_app; auto.
Qed.

Lemma trace_inv_wget_urls_printed : trace_inv wget_urls_printed.
Proof.
  split.
  - intros output url rc [].
  - intros e1 e2 H1 H2 output url rc Hin.
    apply in_app_or in Hin. apply in_or_app.
    destruct Hin as [Hin | Hin]; [left | right]; eauto.
Qed.

(** Walk through the body of a download stage; the side conditions on the
    events of each helper are left as goals. *)
Ltac keeps_steps HQ :=
  repeat first
    [ apply keeps_ret; exact HQ
    | apply keeps_bind_getitem; [exact HQ | intros ? ?]
    | apply keeps_subprocess_run
    | apply keeps_download_hf_file
    | apply keeps_download_hf_snapshot
    | apply keeps_download_wget_file
    | apply keeps_for; [exact HQ | intros ?]
    | apply keeps_bind; [exact HQ | | intros ?] ].

(** Side conditions: a property of each event of a short literal trace. *)
Ltac each_event tac :=
  intros;
  repeat (apply List.Forall_cons; [tac |]);
  apply List.Forall_nil.

Ltac settle_token_confined :=
  simpl;
  first
    [ exact I
    | split; [reflexivity | eassumption]
    | left; reflexivity
    | right; left; reflexivity
    | right; right; left; reflexivity ].

(** X11: where the credentials of tokens.json go.  In any run of the
    download stage of any class, for a builder made by its constructor, a
    hub fetch carries a token only when it fetches from
    black-forest-labs/FLUX.1-schnell, and then the value of HF_TOKEN; every
    other hub fetch is anonymous.  The value of CIVITAI_TOKEN is written
    into the command line of the two Civitai downloads but does not reach
    [wget]: [sh] ends the command at the first ["&"] of the URL, so [wget]
    is started with one of three fixed texts, none of which holds a
    token. *)
Theorem X11_where_the_tokens_go (E : Env) (c : class)
    (tokens : gmap string string) :
  let self := self_attrs (instantiate c) in
  keeps (Forall (token_confined tokens))
    (vt_hf_download (mro c) E self tokens).
Proof.
  destruct c; cbv zeta; resolve_hf_download;
    keeps_steps (trace_inv_Forall (token_confined tokens));
    each_event settle_token_confined.
Qed.

Ltac settle_in_footprint :=
  simpl; unfold in_models_tree; first [reflexivity | exact I].

(** X12: the download stage of every class stays inside two places.  In
    any run, whether it returns or raises, each step prints a "Downloading"
    line, fetches from the hub into the builder's cache directory, lets
    [wget] write a file directly into that directory, or makes a directory
    or a link inside the builder's model directory tree.  It never removes
    anything and never reads tokens.json itself; and the cache directory is
    the mount point of the cache volume in the step that runs the stage. *)
Theorem X12_download_stage_footprint (E : Env) (c : class)
    (tokens : gmap string string) :
  let self := self_attrs (instantiate c) in
  keeps (Forall (in_footprint self)) (vt_hf_download (mro c) E self tokens)
  /\ forall force_build,
       exists f volumes,
         download_step self force_build tokens
           = modal.run_function_ f volumes force_build tokens
         /\ modal.im_self f = self
         /\ volumes !! _cache_dir self = Some hf_hub_cache.
Proof.
  cbv zeta. split.
  - destruct c; resolve_hf_download;
      match goal with
      | |- keeps (Forall (in_footprint ?s)) _ =>
          keeps_steps (trace_inv_Forall (in_footprint s))
      end;
      each_event settle_in_footprint.
  - intros force_build. do 2 eexists.
    split; [reflexivity |]. split; [reflexivity |].
    apply lookup_singleton_eq.
Qed.

Ltac settle_wget_urls_printed :=
  let Hin := fresh "Hin" in
  intros; intros ? ? ? Hin; simpl in Hin;
  repeat (destruct Hin as [Hin | Hin]; [try discriminate |]);
  [ .. | destruct Hin ];
  try (inversion Hin; subst; simpl; auto).

(** X13: every URL the download stage gives to [wget] has been printed in
    full in a "Downloading" line of the same run.  For the Civitai
    downloads of the video and the Krita workloads that URL ends with the
    value of CIVITAI_TOKEN, so the token appears in the output of the
    build. *)
Theorem X13_wget_urls_are_printed (E : Env) (c : class) (self : attrs)
    (tokens : gmap string string) :
  keeps wget_urls_printed (vt_hf_download (mro c) E self tokens).
Proof.
  destruct c; resolve_hf_download;
    keeps_steps trace_inv_wget_urls_printed;
    settle_wget_urls_printed.
Qed.

Lemma X13_wget_urls_are_printed_witness :
  In (Print "Downloading https://civitai.com/api/download/models/1873761?type=Model&format=GGUF&size=full&fp=fp32&token=c1v1t41")
     (snd (vt_hf_download (mro C_WanComfyAppBuilder)
             (friendly_env None None)
             (self_attrs (instantiate C_WanComfyAppBuilder))
             civitai_tokens [])).
Proof.
  destruct (X13_wget_urls_are_printed (friendly_env None None)
              C_WanComfyAppBuilder
              (self_attrs (instantiate C_WanComfyAppBuilder))
              civitai_tokens [])
    as (evs & Htr & Hprinted).
  rewrite Htr. simpl app.
  apply (Hprinted "/cache/liveWallpaperFast_i2v14B720P.gguf" _ 0).
  vm_compute in Htr. subst evs. simpl. auto 20.
Defined.

(** ** Which tokens a download stage needs *)

Lemma never_returns_bind_l {A B} (m : M A) (k : A -> M B) :
  never_returns m -> never_returns (bind m k).
Proof.
  intros H tr. unfold bind. destruct (H tr) as (e & He).
  destruct (m tr) as [[a | e'] tr1]; simpl in He; [discriminate |].
  exists e'. reflexivity.
Qed.

Lemma never_returns_bind_r {A B} (m : M A) (k : A -> M B) :
  (forall a, never_returns (k a)) -> never_returns (bind m k).
Proof.
  intros H tr. unfold bind.
  destruct (m tr) as [[a | e'] tr1]; [apply H | exists e'; reflexivity].
Qed.

Lemma never_returns_getitem_missing {V} (d : gmap string V) (key : string) :
  d !! key = None -> never_returns (getitem d key).
Proof. intros H tr. unfold getitem. rewrite H. eexists. reflexivity. Qed.

Ltac find_missing_key :=
  first
    [ apply never_returns_getitem_missing; assumption
    | apply never_returns_bind_l; find_missing_key
    | apply never_returns_bind_r; intros ?; find_missing_key ].

Lemma returns_ret {A} (a : A) : returns (ret a).
Proof. intros tr. exists a. reflexivity. Qed.

Lemma returns_bind {A B} (m : M A) (k : A -> M B) :
  returns m -> (forall a, returns (k a)) -> returns (bind m k).
Proof.
  intros Hm Hk tr. unfold bind. destruct (Hm tr) as (a & Ha).
  destruct (m tr) as [[a' | e] tr1]; simpl in Ha; [| discriminate].
  apply Hk.
Qed.

Lemma returns_getitem {V} (d : gmap string V) (key : string) :
  is_Some (d !! key) -> returns (getitem d key).
Proof.
  intros [v Hv] tr. unfold getitem. rewrite Hv. exists v. reflexivity.
Qed.

Lemma returns_for {A} (xs : list A) (body : A -> M unit) :
  (forall x, returns (body x)) -> returns (for_ xs body).
Proof.
  intros H. induction xs as [| x xs IH]; simpl.
  - apply returns_ret.
  - apply returns_bind; auto.
Qed.

Section Returns.
Variable E : Env.
Hypothesis Hcoop : cooperative E.

Lemma returns_subprocess_run (cmd : shell_cmd) :
  returns (comfy_utils.subprocess_run E cmd true).
Proof.
  intros tr. rewrite subprocess_run_checked. cbv zeta.
  destruct Hcoop as (_ & _ & Hsh). rewrite Hsh. exists tt. reflexivity.
Qed.

Lemma returns_download_hf_file repo filename cache_dir save_dir sf token :
  returns (comfy_utils.download_hf_file E repo filename cache_dir save_dir
             sf token).
Proof.
  intros tr. rewrite download_hf_file_eq. cbv zeta.
  destruct Hcoop as (Hhub & _ & Hsh).
  destruct (Hhub (tr ++ [hf_file_message repo filename]) repo filename
              cache_dir token) as (path & ->).
  rewrite Hsh. exists tt. reflexivity.
Qed.

Lemma returns_download_hf_snapshot repo dir_name cache_dir save_dir allow
    ignore :
  returns (comfy_utils.download_hf_snapshot E repo dir_name cache_dir
             save_dir allow ignore).
Proof.
  intros tr. rewrite download_hf_snapshot_eq. cbv zeta.
  destruct Hcoop as (_ & Hsnap & Hsh).
  destruct (Hsnap (tr ++ [Print ("Downloading " +:+ repo)]) repo allow ignore
              cache_dir) as (path & ->).
  rewrite Hsh. exists tt. reflexivity.
Qed.

Lemma returns_download_wget_file url filename cache_dir save_dir :
  returns (comfy_utils.download_wget_file E url filename cache_dir save_dir).
Proof.
  intros tr. rewrite download_wget_file_eq. cbv zeta.
  destruct Hcoop as (_ & _ & Hsh).
  rewrite !Hsh. exists tt. reflexivity.
Qed.

End Returns.

Ltac returns_steps Hcoop :=
  repeat first
    [ apply returns_ret
    | apply returns_getitem; assumption
    | apply (returns_subprocess_run _ Hcoop)
    | apply (returns_download_hf_file _ Hcoop)
    | apply (returns_download_hf_snapshot _ Hcoop)
    | apply (returns_download_wget_file _ Hcoop)
    | apply returns_for; intros ?
    | apply returns_bind; [| intros ?] ].

(** X14: the download stage of flux needs the key HF_TOKEN of tokens.json,
    those of krita and wan need CIVITAI_TOKEN, and those of the base class,
    ace-step and qwen need no key.  Without its key a stage raises in every
    run, whatever the hub and the shell do; with it, and with a hub and a
    shell that never fail, the stage returns. *)
Theorem X14_tokens_a_stage_needs (E : Env) (c : class) (self : attrs)
    (tokens : gmap string string) :
  (forall tr,
     fst (vt_hf_download (mro c) E self tokens tr) = Ok tt ->
     Forall (fun k => is_Some (tokens !! k)) (required_tokens c))
  /\ (cooperative E ->
      Forall (fun k => is_Some (tokens !! k)) (required_tokens c) ->
      forall tr, fst (vt_hf_download (mro c) E self tokens tr) = Ok tt).
Proof.
  split.
  - intros tr Hok.
    assert (Hnever : forall k, In k (required_tokens c) ->
                       tokens !! k = None ->
                       never_returns (vt_hf_download (mro c) E self tokens)).
    { intros k Hin Hmiss.
      destruct c; simpl in Hin; try contradiction;
        destruct Hin as [<- | []];
        resolve_hf_download; find_missing_key. }
    apply List.Forall_forall. intros k Hin.
    destruct (tokens !! k) as [v |] eqn:Hk; [eauto |].
    destruct (Hnever k Hin Hk tr) as (e & He). congruence.
  - intros Hcoop Hkeys tr.
    assert (Hret : returns (vt_hf_download (mro c) E self tokens)).
    { destruct c; simpl in Hkeys;
        try (apply List.Forall_cons_iff in Hkeys as [Hkey _]);
        resolve_hf_download; returns_steps Hcoop. }
    destruct (Hret tr) as ([] & Hu). exact Hu.
Qed.

Lemma X14_tokens_a_stage_needs_witness :
  (exists e,
     fst (vt_hf_download (mro C_FluxComfyAppBuilder) (friendly_env None None)
            (self_attrs (instantiate C_FluxComfyAppBuilder))
            civitai_tokens []) = Raise e)
  /\ fst (vt_hf_download (mro C_WanComfyAppBuilder) (friendly_env None None)
            (self_attrs (instantiate C_WanComfyAppBuilder))
            civitai_tokens []) = Ok tt.
Proof.
  split.
  - destruct (fst (vt_hf_download (mro C_FluxComfyAppBuilder)
                     (friendly_env None None)
                     (self_attrs (instantiate C_FluxComfyAppBuilder))
                     civitai_tokens [])) as [[] | e] eqn:Hrun; [| eauto].
    exfalso.
    pose proof (proj1 (X14_tokens_a_stage_needs (friendly_env None None)
                         C_FluxComfyAppBuilder
                         (self_attrs (instantiate C_FluxComfyAppBuilder))
                         civitai_tokens) [] Hrun) as Hkeys.
    apply List.Forall_cons_iff in Hkeys as [[v Hv] _]. discriminate Hv.
  - apply (proj2 (X14_tokens_a_stage_needs (friendly_env None None)
                    C_WanComfyAppBuilder
                    (self_attrs (instantiate C_WanComfyAppBuilder))
                    civitai_tokens)).
    + repeat split; intros; simpl; eauto.
    + repeat constructor. eexists. reflexivity.
Defined.

(** ** Links and reported fetches in a run that may abort *)

Lemma follow_ret {A} (a : A) : appends (ret a) links_follow_fetches.
Proof. apply appends_ret. repeat split; simpl; auto. Qed.

Lemma follow_bind {A B} (m : M A) (k : A -> M B) :
  appends m links_follow_fetches ->
  (forall a, appends (k a) links_follow_fetches) ->
  appends (bind m k) links_follow_fetches.
Proof.
  intros Hm Hk.
  apply appends_bind with (Q1 := links_follow_fetches)
                          (Q2 := fun _ => links_follow_fetches).
  - exact Hm.
  - exact Hk.
  - intros a e1 r e2 (_ & _ & Heq) (Hpre & Hlen & Hr).
    unfold links_follow_fetches, links, fetched in *.
    rewrite !flat_map_app, !map_app, !length_app, Heq.
    split; [apply prefix_app, Hpre |]. split.
    + rewrite <- Heq, length_map. lia.
    + destruct r; [congruence | exact I].
  - intros e e1 (Hpre & Hlen & _). repeat split; assumption.
Qed.

Lemma follow_getitem {V} (d : gmap string V) (key : string) :
  appends (getitem d key) links_follow_fetches.
Proof.
  unfold getitem. destruct (d !! key); [apply follow_ret |].
  apply appends_raise. repeat split; simpl; auto.
Qed.

Lemma follow_for {A} (xs : list A) (body : A -> M unit) :
  (forall x, appends (body x) links_follow_fetches) ->
  appends (for_ xs body) links_follow_fetches.
Proof.
  intros H. induction xs as [| x xs IH]; simpl.
  - apply follow_ret.
  - apply follow_bind; auto.
Qed.

Ltac settle_follow eqn :=
  let tr := fresh "tr" in
  intros tr; rewrite eqn; cbv zeta;
  case_oracle_answers;
  eexists; (split; [simpl; rewrite <- ?app_assoc; reflexivity |]);
  unfold links_follow_fetches, links, fetched; simpl;
  repeat match goal with
         | H : (?rc =? 0) = _ |- context [?rc =? 0] => rewrite H
         end;
  simpl; repeat split; auto;
  first [reflexivity | apply prefix_nil | lia].

Section Follow.
Variable E : Env.

Lemma follow_mkdir (dir : string) :
  appends (comfy_utils.subprocess_run E (mkdir_p dir) true)
    links_follow_fetches.
Proof. settle_follow subprocess_run_checked. Qed.

Lemma follow_download_hf_file repo filename cache_dir save_dir sf token :
  appends (comfy_utils.download_hf_file E repo filename cache_dir save_dir
             sf token) links_follow_fetches.
Proof. settle_follow download_hf_file_eq. Qed.

Lemma follow_download_hf_snapshot repo dir_name cache_dir save_dir allow
    ignore :
  appends (comfy_utils.download_hf_snapshot E repo dir_name cache_dir
             save_dir allow ignore) links_follow_fetches.
Proof. settle_follow download_hf_snapshot_eq. Qed.

Lemma follow_download_wget_file url filename cache_dir save_dir :
  appends (comfy_utils.download_wget_file E url filename cache_dir save_dir)
    links_follow_fetches.
Proof. settle_follow download_wget_file_eq. Qed.

End Follow.

Ltac follow_steps :=
  repeat first
    [ apply follow_ret
    | apply follow_getitem
    | apply follow_mkdir
    | apply follow_download_hf_file
    | apply follow_download_hf_snapshot
    | apply follow_download_wget_file
    | apply follow_for; intros ?
    | apply follow_bind; [| intros ?] ].

(** X15: in any run of the download stage of any class, also one that
    aborts, the links created so far point, in order, to the cache paths of
    the fetch steps that reported success so far: the path a hub call
    returned, or the output path of a [wget] line whose status was 0.  No
    link points anywhere else, and at most one such path (the last) is left
    without its link.  For the two Civitai lines the status is 0 whatever
    [wget] does, so there the link does not show that the file exists. *)
Theorem X15_links_follow_reported_fetches (E : Env) (c : class) (self : attrs)
    (tokens : gmap string string) (tr : list event) :
  exists evs,
    snd (vt_hf_download (mro c) E self tokens tr) = tr ++ evs
    /\ map fst (links evs) `prefix_of` fetched evs
    /\ (length (fetched evs) <= S (length (links evs)))%nat.
Proof.
  assert (H : appends (vt_hf_download (mro c) E self tokens)
                links_follow_fetches)
    by (destruct c; resolve_hf_download; follow_steps).
  destruct (H tr) as (evs & Htr & Hpre & Hlen & _).
  exists evs. auto.
Qed.

(** ** The steps of the entry point *)

Lemma main_run_unreadable_eq (E : Env) (v : string) (c : class)
    (tr : list event) :
  environ_APP E = Some v ->
  main.APP_REGISTRY !! normalise v = Some c ->
  tokens_json E = None ->
  main.run E tr
  = (Raise OSError,
     snd (ComfyAppBuilder._build_image_and_volumes mro E (instantiate c)
            false tr)).
Proof.
  intros Henv Hreg Htok.
  unfold main.run. unfold bind at 1.
  rewrite select_builder_eq, Henv. unfold normalise in Hreg. rewrite Hreg.
  unfold ComfyAppBuilder.build_app, bind. cbn [default from_option].
  rewrite (pipeline_unreadable_eq E (instantiate c) false tr Htok).
  reflexivity.
Qed.

Lemma main_run_config_error_eq (E : Env) (tr : list event) :
  (environ_APP E = None ->
   main.run E tr = (Raise (ValueError unset_message), tr))
  /\ (forall v, environ_APP E = Some v ->
        main.APP_REGISTRY !! normalise v = None ->
        main.run E tr = (Raise (KeyError (normalise v)), tr)).
Proof.
  split.
  - intros H. unfold main.run, bind at 1.
    rewrite select_builder_eq, H. reflexivity.
  - intros v H Hmiss. unfold normalise in *. unfold main.run, bind at 1.
    rewrite select_builder_eq, H, Hmiss. reflexivity.
Qed.

(** X16: the entry point fetches nothing.  In every run of [main.run],
    whether it returns or raises, each step is local: a print, the reading
    of tokens.json, a stage of the pipeline or the registration of the web
    function.  No hub call is made and no command is run; the downloads are
    only described in the image. *)
Theorem X16_entry_point_fetches_nothing (E : Env) (tr : list event) :
  exists evs,
    snd (main.run E tr) = tr ++ evs /\ forallb is_local evs = true.
Proof.
  destruct (environ_APP E) as [v |] eqn:Henv.
  - destruct (main.APP_REGISTRY !! normalise v) as [c |] eqn:Hreg.
    + destruct (tokens_json E) as [toks |] eqn:Htok.
      * rewrite (main_run_eq E v c toks tr Henv Hreg Htok).
        eexists. split; reflexivity.
      * rewrite (main_run_unreadable_eq E v c tr Henv Hreg Htok).
        rewrite (pipeline_unreadable_eq E (instantiate c) false tr Htok).
        eexists. split; reflexivity.
    + rewrite (proj2 (main_run_config_error_eq E tr) v Henv Hreg).
      exists []. simpl. rewrite app_nil_r. split; reflexivity.
  - rewrite (proj1 (main_run_config_error_eq E tr) Henv).
    exists []. simpl. rewrite app_nil_r. split; reflexivity.
Qed.

(** ** The names of the weight shards *)


